(** * Environmental-AI-Agent: the carbon-footprint tracker of
      [environmental_ai.py], embedded and verified.

    The development follows the Python class [EnvironmentalAIAgent]:

    - Python's numbers are IEEE-754 binary64 values, embedded as Rocq's
      primitive floats with [round(x, 2)] written out;
    - [datetime.now()], [timedelta] and [isoformat] are embedded with the
      proleptic Gregorian ordinal arithmetic of the standard library, the
      clock being an argument of every call;
    - the agent is an explicit state: the four category logs, the user
      preferences and the trace of the saves to storage;
    - the calls return in a small result monad: a value, a raised fault,
      or fuel exhausted (for the one unbounded loop of the program);
    - the random generator is a sequence of draws, an argument of the calls
      that draw (the tips, the shuffle of the products);
    - storage is the two documents of the user's directory, the outcome of
      each read and write being an argument of the start and of the
      replay of the saves;
    - the text of the report is a list of pieces, its date left to
      [strftime].

    [visualize_carbon_footprint] is not embedded: what it does is done by
    the plotting library.

    Entries are typed records with the fields the program writes, and a
    number is a float: a Python [int] that the program meets in a float
    position (the literal [0] of a factor or of an initial sum) is the float
    of the same value. The passenger count is an [int], converted where the
    program divides by it. *)

From Stdlib Require Import ZArith String Ascii List Lia Floats.
From stdpp Require Import base option list gmap strings.

Set Warnings "-inexact-float".
#[local] Open Scope string_scope.
#[local] Open Scope list_scope.
#[local] Open Scope Z_scope.

(* ===================================================================== *)
(** ** Results of a call *)
(* ===================================================================== *)

(** The faults the modelled code can raise. *)
Inductive exn : Type :=
| OverflowError (msg : string).

(** A call returns, raises, or is cut off by the fuel of an unbounded loop. *)
Inductive result (A : Type) : Type :=
| Ret (a : A)
| Raise (e : exn)
| OutOfFuel.
Arguments Ret {A} a.
Arguments Raise {A} e.
Arguments OutOfFuel {A}.

#[global] Instance result_ret : MRet result := fun A a => Ret a.

#[global] Instance result_bind : MBind result := fun A B k r =>
  match r with
  | Ret a => k a
  | Raise e => Raise e
  | OutOfFuel => OutOfFuel
  end.

(* ===================================================================== *)
(** ** Python numbers *)
(* ===================================================================== *)

Module PyNum.

(** [float(n)] for a Python [int]: the nearest binary64 value, ties to even;
    an [int] too large for a finite double raises [OverflowError]. *)
Definition float_of_int (n : Z) : result float :=
  match binary_normalize prec emax n 0 false with
  | S754_infinity _ =>
      Raise (OverflowError "int too large to convert to float")
  | sf => Ret (SF2Prim sf)
  end.

(** [n / d] rounded to the nearest integer, ties to the even one
    ([0 <= n], [0 < d]). *)
Definition div_half_even (n d : Z) : Z :=
  let q := n / d in
  match 2 * (n mod d) ?= d with
  | Lt => q
  | Gt => q + 1
  | Eq => if Z.even q then q else q + 1
  end.

(** The exact value [m * 2^e] in hundredths, rounded half to even: the
    two-digit decimal that the correctly rounded [dtoa] of CPython's
    [float.__round__] produces. *)
Definition hundredths (m : positive) (e : Z) : Z :=
  match e with
  | Z.neg p => div_half_even (Z.pos m * 100) (2 ^ Z.pos p)
  | _ => Z.pos m * 2 ^ e * 100
  end.

(** [round(x, 2)] on a float: NaN and the infinities round to themselves;
    a finite [x] is rounded to two decimals on its exact binary value
    (ties to even) and the decimal [n / 100] is read back as the nearest
    double, the sign of [x] kept (so [round(-0.001, 2)] is [-0.0]). *)
Definition round2 (x : float) : float :=
  match Prim2SF x with
  | S754_finite s m e =>
      match hundredths m e with
      | Z.pos n =>
          SF2Prim
            (SFdiv prec emax (S754_finite s n 0) (S754_finite false 100 0))
      | _ => SF2Prim (S754_zero s)
      end
  | _ => x
  end.

(** Python's [==] on floats. *)
Definition float_eq (x y : float) : bool := PrimFloat.eqb x y.

End PyNum.

(* ===================================================================== *)
(** ** Python strings *)
(* ===================================================================== *)

Module PyStr.

(** [str.lower()] on the ASCII letters, strings being their UTF-8 bytes. The
    names the program compares the result with are plain ASCII, and a string
    with a non-ASCII character lower-cases to an ASCII one only through the
    Kelvin sign (to [k], which occurs in no category name), so membership of
    the result in the category table is the one of Python's Unicode
    [lower]. *)
Definition lower_char (c : ascii) : ascii :=
  let n := nat_of_ascii c in
  if (65 <=? n)%nat && (n <=? 90)%nat then ascii_of_nat (n + 32) else c.

Fixpoint lower (s : string) : string :=
  match s with
  | EmptyString => EmptyString
  | String c s' => String (lower_char c) (lower s')
  end.

(** [a >= b] on [str]: lexicographic on code points, which on UTF-8 bytes is
    the lexicographic order of the bytes. *)
Definition ge (a b : string) : bool := String.leb b a.

(** ["%0<width>d" % n] for [0 <= n < 10^width]. *)
Fixpoint zero_padded (width : nat) (n : Z) : string :=
  match width with
  | O => EmptyString
  | S w =>
      zero_padded w (n / 10) ++
      String (ascii_of_nat (48 + Z.to_nat (n mod 10))) EmptyString
  end.

End PyStr.

(* ===================================================================== *)
(** ** Python's [datetime] *)
(* ===================================================================== *)

Module PyDatetime.

(** A naive [datetime]; the constructor of the library keeps the fields in
    range ([1 <= year <= 9999], [1 <= month <= 12], ...). *)
Record datetime : Type := mkDatetime {
  year : Z; month : Z; day : Z;
  hour : Z; minute : Z; second : Z; microsecond : Z
}.

Definition _MAXORDINAL : Z := 3652059.

Definition _is_leap (y : Z) : bool :=
  (y mod 4 =? 0) && (negb (y mod 100 =? 0) || (y mod 400 =? 0)).

Definition _days_before_year (y : Z) : Z :=
  let y := y - 1 in y * 365 + y / 4 - y / 100 + y / 400.

Definition _DAYS_IN_MONTH : list Z :=
  [-1; 31; 28; 31; 30; 31; 30; 31; 31; 30; 31; 30; 31].

Definition _DAYS_BEFORE_MONTH : list Z :=
  [-1; 0; 31; 59; 90; 120; 151; 181; 212; 243; 273; 304; 334].

Definition _days_before_month (y m : Z) : Z :=
  nth (Z.to_nat m) _DAYS_BEFORE_MONTH 0
  + (if (2 <? m) && _is_leap y then 1 else 0).

Definition _ymd2ord (y m d : Z) : Z :=
  _days_before_year y + _days_before_month y m + d.

Definition _DI400Y : Z := 146097.
Definition _DI100Y : Z := 36524.
Definition _DI4Y : Z := 1461.

(** [_ord2ymd]: the date of a proleptic Gregorian ordinal. *)
Definition _ord2ymd (n : Z) : Z * Z * Z :=
  let n := n - 1 in
  let n400 := n / _DI400Y in let n := n mod _DI400Y in
  let y := n400 * 400 + 1 in
  let n100 := n / _DI100Y in let n := n mod _DI100Y in
  let n4 := n / _DI4Y in let n := n mod _DI4Y in
  let n1 := n / 365 in let n := n mod 365 in
  let y := y + n100 * 100 + n4 * 4 + n1 in
  if (n1 =? 4) || (n100 =? 4) then (y - 1, 12, 31)
  else
    let leapyear := (n1 =? 3) && (negb (n4 =? 24) || (n100 =? 3)) in
    let m := Z.shiftr (n + 50) 5 in
    let preceding :=
      nth (Z.to_nat m) _DAYS_BEFORE_MONTH 0
      + (if (2 <? m) && leapyear then 1 else 0) in
    if n <? preceding then
      let m := m - 1 in
      let preceding :=
        preceding - (nth (Z.to_nat m) _DAYS_IN_MONTH 0
                     + (if (m =? 2) && leapyear then 1 else 0)) in
      (y, m, n - preceding + 1)
    else (y, m, n - preceding + 1).

Definition toordinal (t : datetime) : Z := _ymd2ord (year t) (month t) (day t).

(** [t - timedelta(days=d)]: the time of day is kept; a result before year 1
    (or after year 9999) raises [OverflowError]. *)
Definition sub_days (t : datetime) (d : Z) : result datetime :=
  let n := toordinal t - d in
  if (0 <? n) && (n <=? _MAXORDINAL) then
    let '(y, m, dd) := _ord2ymd n in
    Ret (mkDatetime y m dd (hour t) (minute t) (second t) (microsecond t))
  else Raise (OverflowError "date value out of range").

(** [t.isoformat()]: [YYYY-MM-DDTHH:MM:SS], and [.ffffff] when the
    microseconds are not zero. *)
Definition isoformat (t : datetime) : string :=
  PyStr.zero_padded 4 (year t) ++ "-" ++ PyStr.zero_padded 2 (month t) ++ "-"
  ++ PyStr.zero_padded 2 (day t) ++ "T"
  ++ PyStr.zero_padded 2 (hour t) ++ ":" ++ PyStr.zero_padded 2 (minute t)
  ++ ":" ++ PyStr.zero_padded 2 (second t)
  ++ (if microsecond t =? 0 then ""
      else "." ++ PyStr.zero_padded 6 (microsecond t)).

(** The ranges in which the constructor keeps the fields of every
    [datetime] (the day, besides, within the length of its month). *)
Definition valid (t : datetime) : Prop :=
  1 <= year t <= 9999 /\ 1 <= month t <= 12 /\ 1 <= day t <= 31
  /\ 0 <= hour t < 24 /\ 0 <= minute t < 60 /\ 0 <= second t < 60
  /\ 0 <= microsecond t < 1000000.

(** The order of naive datetimes: [_cmp] on the tuples of their fields. *)
Fixpoint cmp_fields (a b : list Z) : comparison :=
  match a, b with
  | [], [] => Eq
  | [], _ :: _ => Lt
  | _ :: _, [] => Gt
  | x :: a', y :: b' =>
      match x ?= y with
      | Eq => cmp_fields a' b'
      | c => c
      end
  end.

Definition fields (t : datetime) : list Z :=
  [year t; month t; day t; hour t; minute t; second t; microsecond t].

Definition cmp (t1 t2 : datetime) : comparison :=
  cmp_fields (fields t1) (fields t2).

(** [t1 >= t2] on datetimes. *)
Definition ge (t1 t2 : datetime) : bool :=
  match cmp t2 t1 with
  | Gt => false
  | _ => true
  end.

End PyDatetime.

(* ===================================================================== *)
(** ** Dictionaries that keep insertion order *)
(* ===================================================================== *)

Module PyDict.

(** A [dict] with [str] keys whose order of insertion the program observes
    ([items()], [keys()], iteration): an association list. *)
Definition dict (V : Type) : Type := list (string * V).

Fixpoint get {V : Type} (k : string) (d : dict V) : option V :=
  match d with
  | [] => None
  | (k', v) :: d' => if String.eqb k k' then Some v else get k d'
  end.

(** [k in d] *)
Definition mem {V : Type} (k : string) (d : dict V) : bool :=
  match get k d with Some _ => true | None => false end.

Definition keys {V : Type} (d : dict V) : list string := map fst d.

(** [d[k] = v]: an existing key keeps its place, a new one goes last. *)
Fixpoint set {V : Type} (k : string) (v : V) (d : dict V) : dict V :=
  match d with
  | [] => [(k, v)]
  | (k', v') :: d' =>
      if String.eqb k k' then (k', v) :: d' else (k', v') :: set k v d'
  end.

End PyDict.

(* ===================================================================== *)
(** ** The agent's data *)
(* ===================================================================== *)

Import PyNum PyDatetime.

(** An f-string, as its pieces: the program's messages embed floats, whose
    rendering ([repr]) is left to the reader of the message. *)
Inductive piece : Type :=
| Lit (s : string)
| Num (x : float)
| Int (n : Z).

Definition fstring : Type := list piece.

Record transportation_entry : Type := mkTransportation {
  t_date : string; t_mode : string; t_distance : float;
  t_passengers : Z; t_emissions : float
}.

Record energy_entry : Type := mkEnergy {
  e_date : string; e_type : string; e_amount : float;
  e_unit : string; e_emissions : float
}.

(** An item handed to [track_food]: [item.get("type")] is [None] when the key
    is absent. *)
Record food_item : Type := mkFoodItem {
  i_type : option string; i_amount : float; i_local : bool; i_organic : bool
}.

Record tracked_item : Type := mkTracked {
  k_type : string; k_amount : float; k_local : bool; k_organic : bool;
  k_emissions : float
}.

Record food_entry : Type := mkFood {
  f_date : string; f_items : list tracked_item; f_total_emissions : float
}.

Record purchase_entry : Type := mkPurchase {
  p_date : string; p_category : string; p_description : string;
  p_price : float; p_eco_friendly : bool; p_emissions : float
}.

(** [self.carbon_data]: the four category logs. *)
Record record_set : Type := mkRecords {
  transportation : list transportation_entry;
  energy : list energy_entry;
  food : list food_entry;
  purchases : list purchase_entry
}.

(** The value of a preference: a string or a list of strings. *)
Inductive pref_value : Type :=
| PStr (s : string)
| PList (l : list string).

(** What [_save_data] writes. *)
Inductive saved : Type :=
| SavedCarbon (d : record_set)
| SavedPreferences (p : gmap string pref_value).

(** The agent: its record set, its preferences and the trace of the calls of
    [_save_data] (file name and content, oldest first). *)
Record agent : Type := mkAgent {
  carbon_data : record_set;
  user_preferences : gmap string pref_value;
  saves : list (string * saved)
}.

(** [_save_data(filename, data)]: a failure of the write is caught inside and
    changes nothing of the agent's memory; the trace records the call. *)
Definition _save_data (filename : string) (data : saved) (self : agent)
    : agent :=
  mkAgent (carbon_data self) (user_preferences self)
    (saves self ++ [(filename, data)]).

Definition set_carbon (d : record_set) (self : agent) : agent :=
  mkAgent d (user_preferences self) (saves self).

(** [self.carbon_data[...].append(entry)] followed by
    [self._save_data("carbon_footprint.json", self.carbon_data)]. *)
Definition record_carbon (d : record_set) (self : agent) : agent :=
  _save_data "carbon_footprint.json" (SavedCarbon d) (set_carbon d self).

(** [_load_tips()] *)
Definition _load_tips : PyDict.dict (list string) :=
  [ ("transportation",
     [ "Consider carpooling to reduce emissions";
       "Try using public transportation once a week";
       "Combine errands to reduce total driving distance";
       "Consider an electric vehicle for your next car purchase";
       "Keep your tires properly inflated to improve fuel efficiency" ]);
    ("energy",
     [ "Switch to LED light bulbs to reduce energy consumption";
       "Unplug electronics when not in use to avoid phantom energy";
       "Use a smart thermostat to optimize heating and cooling";
       "Air dry clothes instead of using a dryer when possible";
       "Consider adding insulation to your home to reduce energy needs" ]);
    ("food",
     [ "Try incorporating one meatless meal per week";
       "Buy local produce to reduce transportation emissions";
       "Plan meals to reduce food waste";
       "Compost food scraps instead of sending to landfill";
       "Choose seasonal fruits and vegetables" ]);
    ("purchases",
     [ "Consider secondhand items before buying new";
       "Look for products with minimal packaging";
       "Invest in quality items that last longer";
       "Repair items when possible instead of replacing";
       "Choose products made from recycled materials" ]) ].

(** [self.eco_tips], set once by [__init__] from [_load_tips()]. *)
Definition eco_tips : PyDict.dict (list string) := _load_tips.

(* ===================================================================== *)
(** ** Tracking calls *)
(* ===================================================================== *)

Definition transportation_factors : PyDict.dict float :=
  [ ("car", 0.192%float); ("bus", 0.105%float); ("train", 0.041%float);
    ("bicycle", 0%float); ("walk", 0%float); ("plane", 0.255%float) ].

Definition append_transportation (entry : transportation_entry)
    (d : record_set) : record_set :=
  mkRecords (transportation d ++ [entry]) (energy d) (food d) (purchases d).

(** [track_transportation(mode, distance, passengers=1)] *)
Definition track_transportation (now : datetime) (mode : string)
    (distance : float) (passengers : Z) (self : agent)
    : result (fstring * agent) :=
  match PyDict.get mode transportation_factors with
  | None =>
      Ret ([Lit "Sorry, I don't recognize '"; Lit mode;
            Lit "' as a transportation mode."], self)
  | Some factor =>
      emissions ←
        (if String.eqb mode "car" then
           p ← float_of_int (Z.max 1 passengers);
           Ret (factor * distance / p)%float
         else Ret (factor * distance)%float);
      let entry :=
        mkTransportation (isoformat now) mode distance passengers
          (round2 emissions) in
      let self :=
        record_carbon (append_transportation entry (carbon_data self)) self in
      Ret ([Lit "Tracked "; Num distance; Lit " km via "; Lit mode;
            Lit " with carbon impact of "; Num (round2 emissions);
            Lit " kg CO2e"], self)
  end.

Definition energy_factors : PyDict.dict float :=
  [ ("electricity", 0.233%float); ("natural_gas", 0.181%float);
    ("heating_oil", 0.249%float); ("propane", 0.215%float);
    ("renewable", 0.015%float) ].

Definition append_energy (entry : energy_entry) (d : record_set)
    : record_set :=
  mkRecords (transportation d) (energy d ++ [entry]) (food d) (purchases d).

(** [track_energy_usage(type, amount, unit)] *)
Definition track_energy_usage (now : datetime) (type : string)
    (amount : float) (unit : string) (self : agent)
    : result (fstring * agent) :=
  match PyDict.get type energy_factors with
  | None =>
      Ret ([Lit "Sorry, I don't recognize '"; Lit type;
            Lit "' as an energy type."], self)
  | Some factor =>
      let '(amount, unit) :=
        if String.eqb unit "therms" && String.eqb type "natural_gas"
        then ((amount * 29.3001)%float, "kWh")
        else (amount, unit) in
      if negb (String.eqb unit "kWh") then
        Ret ([Lit "I currently only support kWh units. Please convert ";
              Lit unit; Lit " to kWh."], self)
      else
        let emissions := (factor * amount)%float in
        let entry :=
          mkEnergy (isoformat now) type amount unit (round2 emissions) in
        let self :=
          record_carbon (append_energy entry (carbon_data self)) self in
        Ret ([Lit "Tracked "; Num amount; Lit " "; Lit unit; Lit " of ";
              Lit type; Lit " with carbon impact of ";
              Num (round2 emissions); Lit " kg CO2e"], self)
  end.

Definition food_factors : PyDict.dict float :=
  [ ("beef", 27.0%float); ("lamb", 39.2%float); ("pork", 12.1%float);
    ("chicken", 6.9%float); ("fish", 6.1%float); ("eggs", 4.8%float);
    ("rice", 2.7%float); ("milk", 1.9%float); ("cheese", 13.5%float);
    ("vegetables", 2.0%float); ("fruits", 1.1%float); ("beans", 2.0%float);
    ("nuts", 2.3%float) ].

(** One turn of the loop of [track_food] over [(total_emissions,
    tracked_items)]: an item whose type is not in the table is skipped by
    [continue]. *)
Definition food_step (acc : float * list tracked_item) (item : food_item)
    : float * list tracked_item :=
  let '(total_emissions, tracked_items) := acc in
  match i_type item with
  | None => acc
  | Some food_type =>
      match PyDict.get food_type food_factors with
      | None => acc
      | Some factor =>
          let item_emissions := (factor * i_amount item)%float in
          let item_emissions :=
            if i_local item then (item_emissions * 0.8)%float
            else item_emissions in
          let item_emissions :=
            if i_organic item then (item_emissions * 0.9)%float
            else item_emissions in
          ((total_emissions + item_emissions)%float,
           tracked_items ++
           [mkTracked food_type (i_amount item) (i_local item)
              (i_organic item) (round2 item_emissions)])
      end
  end.

Definition append_food (entry : food_entry) (d : record_set) : record_set :=
  mkRecords (transportation d) (energy d) (food d ++ [entry]) (purchases d).

(** [track_food(items)] *)
Definition track_food (now : datetime) (items : list food_item) (self : agent)
    : result (fstring * agent) :=
  let '(total_emissions, tracked_items) :=
    fold_left food_step items (0%float, []) in
  let entry :=
    mkFood (isoformat now) tracked_items (round2 total_emissions) in
  let self := record_carbon (append_food entry (carbon_data self)) self in
  Ret ([Lit "Tracked "; Int (Z.of_nat (length tracked_items));
        Lit " food items with total carbon impact of ";
        Num (round2 total_emissions); Lit " kg CO2e"], self).

Definition purchase_factors : PyDict.dict float :=
  [ ("clothing", 0.5%float); ("electronics", 0.7%float);
    ("furniture", 0.8%float); ("household", 0.4%float);
    ("hobby", 0.3%float) ].

Definition append_purchase (entry : purchase_entry) (d : record_set)
    : record_set :=
  mkRecords (transportation d) (energy d) (food d) (purchases d ++ [entry]).

(** [track_purchase(category, description, price, eco_friendly=False)];
    after the fallback the category is a key of the table, so
    [emissions_factors[category]] is the looked-up factor. *)
Definition track_purchase (now : datetime) (category description : string)
    (price : float) (eco_friendly : bool) (self : agent)
    : result (fstring * agent) :=
  let category := PyStr.lower category in
  let category :=
    if negb (PyDict.mem category purchase_factors) then "household"
    else category in
  let factor := default 0%float (PyDict.get category purchase_factors) in
  let emissions := (factor * price)%float in
  let emissions :=
    if eco_friendly then (emissions * 0.7)%float else emissions in
  let entry :=
    mkPurchase (isoformat now) category description price eco_friendly
      (round2 emissions) in
  let self := record_carbon (append_purchase entry (carbon_data self)) self in
  Ret ([Lit "Tracked purchase: "; Lit description;
        Lit " with estimated carbon impact of "; Num (round2 emissions);
        Lit " kg CO2e"], self).

(* ===================================================================== *)
(** ** The summary *)
(* ===================================================================== *)

(** What [get_carbon_footprint_summary] returns: the summary [dict], or the
    message of an unsupported period (a [str]). *)
Inductive footprint : Type :=
| Summary (summary : PyDict.dict float)
| Unsupported (msg : fstring).

(** [summary[k]], the key being present. *)
Definition item (k : string) (summary : PyDict.dict float) : float :=
  default 0%float (PyDict.get k summary).

(** One of the four loops: [for entry in log: if entry["date"] >= start_date:
    summary[key] += entry[field]], over the date and the field of the
    entries. *)
Definition accumulate (key start_date : string) (log : list (string * float))
    (summary : PyDict.dict float) : PyDict.dict float :=
  fold_left
    (fun summary entry =>
       if PyStr.ge (fst entry) start_date
       then PyDict.set key (item key summary + snd entry)%float summary
       else summary)
    log summary.

(** The start of the window, as the [if]/[elif] chain computes it; [None] on
    the [else] branch. *)
Definition start_date (today : datetime) (time_period : string)
    : result (option string) :=
  if String.eqb time_period "week" then
    d ← sub_days today 7; Ret (Some (isoformat d))
  else if String.eqb time_period "month" then
    d ← sub_days today 30; Ret (Some (isoformat d))
  else if String.eqb time_period "year" then
    d ← sub_days today 365; Ret (Some (isoformat d))
  else Ret None.

(** [get_carbon_footprint_summary(time_period="month")] *)
Definition get_carbon_footprint_summary (now : datetime)
    (time_period : string) (self : agent) : result footprint :=
  start ← start_date now time_period;
  match start with
  | None =>
      Ret (Unsupported
             [Lit "Unsupported time period: "; Lit time_period;
              Lit ". Please use 'week', 'month', or 'year'."])
  | Some start_date =>
      let summary : PyDict.dict float :=
        [ ("transportation", 0%float); ("energy", 0%float); ("food", 0%float);
          ("purchases", 0%float); ("total", 0%float) ] in
      let summary :=
        accumulate "transportation" start_date
          (map (fun e => (t_date e, t_emissions e))
             (transportation (carbon_data self)))
          summary in
      let summary :=
        accumulate "energy" start_date
          (map (fun e => (e_date e, e_emissions e)) (energy (carbon_data self)))
          summary in
      let summary :=
        accumulate "food" start_date
          (map (fun e => (f_date e, f_total_emissions e))
             (food (carbon_data self)))
          summary in
      let summary :=
        accumulate "purchases" start_date
          (map (fun e => (p_date e, p_emissions e))
             (purchases (carbon_data self)))
          summary in
      let summary :=
        PyDict.set "total"
          (item "transportation" summary + item "energy" summary
           + item "food" summary + item "purchases" summary)%float
          summary in
      Ret (Summary (map (fun kv => (fst kv, round2 (snd kv))) summary))
  end.

(* ===================================================================== *)
(** ** Tips *)
(* ===================================================================== *)

(** [self.eco_tips[category]], the category being a key. *)
Definition tips_of (category : string) : list string :=
  default [] (PyDict.get category eco_tips).

(** [np.random.randint(0, n)] for [0 < n]: the generator is a sequence of raw
    draws, of which a call consumes one and reduces it into [[0, n)]. *)
Definition randint (draws : nat -> nat) (i : nat) (n : nat) : nat :=
  (draws i mod n)%nat.

(** Truth value of the [category] argument: [None] and [""] are false. *)
Definition truthy (category : option string) : bool :=
  match category with
  | Some c => negb (String.eqb c "")
  | None => false
  end.

(** [x in l] on a list of strings. *)
Definition contains (x : string) (l : list string) : bool :=
  existsb (String.eqb x) l.

(** [sorted(pairs, key=lambda x: x[1], reverse=True)]: stable, descending
    (the sort of Python on keys that [<] orders; with a NaN among the keys
    the order Python yields depends on its merge strategy, and nothing below
    depends on the order beyond its being a rearrangement). *)
Fixpoint insert_desc (x : string * float) (l : list (string * float))
    : list (string * float) :=
  match l with
  | [] => [x]
  | y :: l' =>
      if PrimFloat.ltb (snd x) (snd y) then y :: insert_desc x l'
      else x :: l
  end.

Definition sorted_desc (l : list (string * float)) : list (string * float) :=
  foldr insert_desc [] l.

(** The loop over [sorted_categories]: one tip of each category that has tips
    and is allowed, until [count] is reached ([break]). Returns the selected
    tips and the number of draws consumed so far. *)
Fixpoint prioritize (draws : nat -> nat) (i : nat)
    (sorted_categories : list (string * float)) (categories : list string)
    (count : Z) (selected_tips : list string) : list string * nat :=
  match sorted_categories with
  | [] => (selected_tips, i)
  | (high_category, _) :: rest =>
      if PyDict.mem high_category eco_tips && contains high_category categories
      then
        let tips := tips_of high_category in
        match tips with
        | [] => prioritize draws i rest categories count selected_tips
        | _ =>
            let selected_tips :=
              selected_tips ++ [nth (randint draws i (length tips)) tips ""] in
            if Z.of_nat (length selected_tips) >=? count
            then (selected_tips, S i)
            else prioritize draws (S i) rest categories count selected_tips
        end
      else prioritize draws i rest categories count selected_tips
  end.

(** [while len(selected_tips) < count: ...], each turn of the loop taking one
    unit of fuel. *)
Fixpoint fill (fuel : nat) (draws : nat -> nat) (i : nat)
    (categories : list string) (count : Z) (selected_tips : list string)
    : result (list string) :=
  if Z.of_nat (length selected_tips) <? count then
    match fuel with
    | O => OutOfFuel
    | S fuel =>
        let random_category :=
          nth (randint draws i (length categories)) categories "" in
        let tips := tips_of random_category in
        match tips with
        | [] => fill fuel draws (S i) categories count selected_tips
        | _ =>
            let tip := nth (randint draws (S i) (length tips)) tips "" in
            if negb (contains tip selected_tips)
            then
              fill fuel draws (S (S i)) categories count
                (selected_tips ++ [tip])
            else fill fuel draws (S (S i)) categories count selected_tips
        end
    end
  else Ret selected_tips.

(** [get_personalized_tips(category=None, count=3)] *)
Definition get_personalized_tips (fuel : nat) (draws : nat -> nat)
    (now : datetime) (category : option string) (count : Z) (self : agent)
    : result (list string) :=
  let c := default "" category in
  if truthy category && negb (PyDict.mem c eco_tips) then
    Ret ["Sorry, I don't have tips for the category '" +:+ c +:+ "'."]
  else
    let categories := if truthy category then [c] else PyDict.keys eco_tips in
    footprint ← get_carbon_footprint_summary now "month" self;
    let '(selected_tips, i) :=
      match footprint with
      | Summary summary =>
          let sorted_categories :=
            sorted_desc
              (List.filter (fun kv => negb (String.eqb (fst kv) "total"))
                 summary) in
          prioritize draws 0 sorted_categories categories count []
      | Unsupported _ => ([], 0%nat)
      end in
    fill fuel draws i categories count selected_tips.

(* ===================================================================== *)
(** ** Preferences *)
(* ===================================================================== *)

(** The body of the loop of [set_user_preferences]:
    [if key in self.user_preferences: self.user_preferences[key] = value]. *)
Definition update_preference (prefs : gmap string pref_value)
    (kv : string * pref_value) : gmap string pref_value :=
  if bool_decide (is_Some (prefs !! fst kv))
  then <[fst kv := snd kv]> prefs
  else prefs.

(** [set_user_preferences(preferences)]: the loop over
    [preferences.items()] (a [dict]: each key once), then the save. *)
Definition set_user_preferences (preferences : gmap string pref_value)
    (self : agent) : result (string * agent) :=
  let user_preferences :=
    foldl update_preference (user_preferences self)
      (map_to_list preferences) in
  let self := mkAgent (carbon_data self) user_preferences (saves self) in
  let self :=
    _save_data "preferences.json" (SavedPreferences user_preferences) self in
  Ret ("User preferences updated successfully", self).

(* ===================================================================== *)
(** ** The specification's notions *)
(* ===================================================================== *)

(** The definitions of this module follow the words of the specification;
    the theorems below compare them with the code embedded above. *)
Module Spec.

(** "week" (7 days), "month" (30 days), "year" (365 days). *)
Definition period_days (time_period : string) : option Z :=
  if String.eqb time_period "week" then Some 7
  else if String.eqb time_period "month" then Some 30
  else if String.eqb time_period "year" then Some 365
  else None.

(** The sum, in the order of the log, of the emissions of the entries whose
    timestamp is [>=] the start of the window. *)
Definition window_sum (start : string) (log : list (string * float)) : float :=
  fold_left PrimFloat.add
    (map snd (List.filter (fun entry => PyStr.ge (fst entry) start) log))
    0%float.

(** base = factor x amount, x0.8 if local, x0.9 if organic. *)
Definition item_emissions (factor amount : float) (local organic : bool)
    : float :=
  match local, organic with
  | true, true => (factor * amount * 0.8 * 0.9)%float
  | true, false => (factor * amount * 0.8)%float
  | false, true => (factor * amount * 0.9)%float
  | false, false => (factor * amount)%float
  end.

(** The factor of an item of recognized type. *)
Definition recognized (it : food_item) : option (string * float) :=
  food_type ← i_type it;
  factor ← PyDict.get food_type food_factors;
  Some (food_type, factor).

(** The unrounded emissions of a recognized item. *)
Definition contribution (it : food_item) : option float :=
  r ← recognized it;
  Some (item_emissions (snd r) (i_amount it) (i_local it) (i_organic it)).

(** The line of a recognized item in the tracked item list. *)
Definition tracked (it : food_item) : option tracked_item :=
  r ← recognized it;
  Some (mkTracked (fst r) (i_amount it) (i_local it) (i_organic it)
          (round2 (item_emissions (snd r) (i_amount it) (i_local it)
                     (i_organic it)))).

(** "total" equals the sum of the four category values as returned
    (Python's [==] on the floats of the returned mapping). *)
Definition total_is_sum_of_values (summary : PyDict.dict float) : bool :=
  float_eq (item "total" summary)
    (item "transportation" summary + item "energy" summary
     + item "food" summary + item "purchases" summary)%float.

(** The eligible tips: those of the allowed categories. *)
Definition pool (categories : list string) : list string :=
  flat_map tips_of categories.

End Spec.

(* ===================================================================== *)
(** ** Concrete scenarios *)
(* ===================================================================== *)

(** A clock reading, and an agent that has recorded nothing yet. *)
Definition noon : datetime := mkDatetime 2024 3 1 12 0 0 0.

Definition fresh : agent := mkAgent (mkRecords [] [] [] []) ∅ [].

(** The agent after a call. *)
Definition after (r : result (fstring * agent)) : agent :=
  match r with
  | Ret (_, self) => self
  | _ => fresh
  end.

(** One kilometre by bus, then 0.86 kWh of electricity. *)
Definition bus_then_electricity : agent :=
  after (track_energy_usage noon "electricity" 0.86 "kWh"
           (after (track_transportation noon "bus" 1 1 fresh))).

(** A stored record set whose emissions have a third decimal. *)
Definition third_decimal : agent :=
  mkAgent
    (mkRecords
       [mkTransportation "2024-02-28T09:00:00" "bus" 0.04 1 0.004]
       [mkEnergy "2024-02-28T09:00:00" "renewable" 0.27 "kWh" 0.004]
       [] [])
    ∅ [].

(** The default preferences, and an update that names one of them and one
    unknown key. *)
Definition default_preferences : gmap string pref_value :=
  <["diet_type" := PStr "omnivore"]>
    (<["home_type" := PStr "apartment"]>
       (<["transportation_primary" := PStr "car"]>
          (<["interests" := PList []]> ∅))).

Definition with_defaults : agent :=
  mkAgent (mkRecords [] [] [] []) default_preferences [].

Definition vegan_and_colour : gmap string pref_value :=
  <["diet_type" := PStr "vegan"]> (<["colour" := PStr "green"]> ∅).

(* ===================================================================== *)
(** ** Product recommendations *)
(* ===================================================================== *)

(** A product of the table: its name and its description. *)
Record product : Type := mkProduct {
  name : string; description : string
}.

#[global] Instance product_eq_dec : EqDecision product.
Proof. solve_decision. Defined.

(** [_load_sustainable_products()] *)
Definition _load_sustainable_products : PyDict.dict (list product) :=
  [ ("home",
     [ mkProduct "Smart thermostat" "Reduces energy usage by 10-15%";
       mkProduct "Low-flow showerhead"
         "Reduces water usage while maintaining pressure";
       mkProduct "Wool dryer balls"
         "Reduces drying time and eliminates need for dryer sheets" ]);
    ("kitchen",
     [ mkProduct "Beeswax food wraps" "Reusable alternative to plastic wrap";
       mkProduct "Silicone food storage bags"
         "Durable alternative to disposable plastic bags";
       mkProduct "Compost bin"
         "Convenient way to collect food scraps for composting" ]);
    ("personal",
     [ mkProduct "Bamboo toothbrush"
         "Biodegradable alternative to plastic toothbrushes";
       mkProduct "Shampoo bar" "Zero-waste alternative to bottled shampoo";
       mkProduct "Reusable water bottle"
         "Reduces plastic waste from disposable bottles" ]) ].

(** [self.sustainable_products], set once by [__init__]. *)
Definition sustainable_products : PyDict.dict (list product) :=
  _load_sustainable_products.

(** [self.sustainable_products[category]], the category being a key. *)
Definition products_of (category : string) : list product :=
  default [] (PyDict.get category sustainable_products).

(** [x[i], x[j] = x[j], x[i]] on a list, both indices in range. *)
Definition swap {A : Type} (i j : nat) (x : list A) : list A :=
  match x !! i, x !! j with
  | Some xi, Some xj => <[j := xi]> (<[i := xj]> x)
  | _, _ => x
  end.

(** [np.random.shuffle(x)] on a list: for [i] from [len(x) - 1] down to 1,
    the element at [i] is exchanged with the one at a drawn [j] in
    [[0, i]]. The draws are taken from the index [k] on. *)
Fixpoint shuffle_down {A : Type} (draws : nat -> nat) (k i : nat)
    (x : list A) : list A :=
  match i with
  | O => x
  | S i' => shuffle_down draws (S k) i' (swap i (randint draws k (S i)) x)
  end.

Definition shuffle {A : Type} (draws : nat -> nat) (k : nat) (x : list A)
    : list A :=
  shuffle_down draws k (length x - 1) x.

(** [l[:k]]: the first [k] elements, and for a negative [k] all but the last
    [-k]. *)
Definition slice_to {A : Type} (k : Z) (l : list A) : list A :=
  if 0 <=? k then take (Z.to_nat k) l
  else take (Z.to_nat (Z.of_nat (length l) + k)) l.

(** The loop of [recommend_sustainable_products] over the categories, the
    draws of the shuffles taken from [k] on. *)
Fixpoint recommend_loop (draws : nat -> nat) (k : nat)
    (categories : list string) (count : Z) (recommendations : list product)
    : list product :=
  match categories with
  | [] => recommendations
  | cat :: rest =>
      let products := products_of cat in
      match products with
      | [] => recommend_loop draws k rest count recommendations
      | _ =>
          let available_products := shuffle draws k products in
          let recommendations :=
            recommendations ++
            slice_to (Z.min count (Z.of_nat (length available_products)))
              available_products in
          if Z.of_nat (length recommendations) >=? count
          then slice_to count recommendations
          else
            recommend_loop draws (k + (length products - 1)) rest count
              recommendations
      end
  end.

(** What [recommend_sustainable_products] returns: a list of products, or
    the list that holds the one message of an unknown category. *)
Inductive recommended : Type :=
| Products (recommendations : list product)
| NoRecommendation (msg : string).

(** [recommend_sustainable_products(category=None, count=3)] *)
Definition recommend_sustainable_products (draws : nat -> nat)
    (category : option string) (count : Z) : recommended :=
  let c := default "" category in
  if truthy category && negb (PyDict.mem c sustainable_products) then
    NoRecommendation
      ("Sorry, I don't have product recommendations for the category '"
       +:+ c +:+ "'.")
  else
    let categories :=
      if truthy category then [c] else PyDict.keys sustainable_products in
    Products (recommend_loop draws 0 categories count []).

(** The products a category filter allows. *)
Definition product_pool (categories : list string) : list product :=
  flat_map products_of categories.

(* ===================================================================== *)
(** ** Sequences of calls *)
(* ===================================================================== *)

(** A call that may write to the agent. *)
Inductive call : Type :=
| TrackTransportation (mode : string) (distance : float) (passengers : Z)
| TrackEnergyUsage (type : string) (amount : float) (unit : string)
| TrackFood (items : list food_item)
| TrackPurchase (category description : string) (price : float)
    (eco_friendly : bool)
| SetUserPreferences (preferences : gmap string pref_value).

(** The agent after a call made at the clock reading [now]. *)
Definition perform (now : datetime) (c : call) (self : agent) : result agent :=
  match c with
  | TrackTransportation mode distance passengers =>
      r ← track_transportation now mode distance passengers self; Ret r.2
  | TrackEnergyUsage type amount unit =>
      r ← track_energy_usage now type amount unit self; Ret r.2
  | TrackFood items => r ← track_food now items self; Ret r.2
  | TrackPurchase category description price eco_friendly =>
      r ← track_purchase now category description price eco_friendly self;
      Ret r.2
  | SetUserPreferences preferences =>
      r ← set_user_preferences preferences self; Ret r.2
  end.

(** The agent after a sequence of calls, each at its clock reading; a call
    that raises ends the sequence. *)
Fixpoint run (calls : list (datetime * call)) (self : agent) : result agent :=
  match calls with
  | [] => Ret self
  | (now, c) :: rest => self' ← perform now c self; run rest self'
  end.

(** The content of the last call of [_save_data] on a file, if any. *)
Definition last_saved (filename : string) (trace : list (string * saved))
    : option saved :=
  snd <$> last (List.filter (fun w => String.eqb (fst w) filename) trace).

(* ===================================================================== *)
(** ** Storage *)
(* ===================================================================== *)

(** A file of the user's directory: a JSON document of the shape the program
    writes there, or content that [json.load] rejects. *)
Inductive file (A : Type) : Type :=
| Doc (data : A)
| Undecodable.
Arguments Doc {A} data.
Arguments Undecodable {A}.

(** The user's directory [data/<user_name>/]: its two files, when they
    exist. *)
Record storage : Type := mkStorage {
  carbon_file : option (file record_set);
  preferences_file : option (file (gmap string pref_value))
}.

(** How [open(file_path, 'w')] followed by [json.dump] ends: the document is
    written; [open] raises and the file is as before; or the file is opened
    (and so emptied) and the dump raises. *)
Inductive write_outcome : Type :=
| Written
| NotOpened
| Truncated.

Definition write_file {A : Type} (outcome : write_outcome) (data : A)
    (slot : option (file A)) : option (file A) :=
  match outcome with
  | Written => Some (Doc data)
  | NotOpened => slot
  | Truncated => Some Undecodable
  end.

(** What the environment does during a call of [_load_or_create_data]:
    whether [os.makedirs] succeeds, whether an existing file can be opened
    and read, and how the creation of a missing file ends. *)
Record load_env : Type := mkLoadEnv {
  makedirs_ok : bool;
  read_ok : bool;
  creation : write_outcome
}.

(** [_load_or_create_data(filename, default_data)] on the file [slot] of
    [filename]: the loaded document, or [default_data] when the file is
    missing (it is then created) or anything raises. Returns the data and
    the file afterwards. *)
Definition _load_or_create_data {A : Type} (env : load_env)
    (slot : option (file A)) (default_data : A) : A * option (file A) :=
  if negb (makedirs_ok env) then (default_data, slot)
  else
    match slot with
    | Some f =>
        if read_ok env then
          match f with
          | Doc data => (data, slot)
          | Undecodable => (default_data, slot)
          end
        else (default_data, slot)
    | None => (default_data, write_file (creation env) default_data slot)
    end.

(** [__init__(user_name)], on the directory of the user: the record set,
    then the preferences; the trace of the new agent is empty. *)
Definition __init__ (env_carbon env_preferences : load_env) (st : storage)
    : agent * storage :=
  let '(carbon_data, carbon_file) :=
    _load_or_create_data env_carbon (carbon_file st)
      (mkRecords [] [] [] []) in
  let '(user_preferences, preferences_file) :=
    _load_or_create_data env_preferences (preferences_file st)
      default_preferences in
  (mkAgent carbon_data user_preferences [],
   mkStorage carbon_file preferences_file).

(** The effect on the directory of one traced call of [_save_data]. *)
Definition commit_one (outcome : write_outcome) (w : string * saved)
    (st : storage) : storage :=
  match snd w with
  | SavedCarbon d =>
      if String.eqb (fst w) "carbon_footprint.json"
      then mkStorage (write_file outcome d (carbon_file st))
             (preferences_file st)
      else st
  | SavedPreferences p =>
      if String.eqb (fst w) "preferences.json"
      then mkStorage (carbon_file st)
             (write_file outcome p (preferences_file st))
      else st
  end.

(** The directory after the traced calls of [_save_data], the [i]-th of
    which ends as [outcome i]. *)
Fixpoint commit (outcome : nat -> write_outcome) (i : nat)
    (trace : list (string * saved)) (st : storage) : storage :=
  match trace with
  | [] => st
  | w :: trace' =>
      commit outcome (S i) trace' (commit_one (outcome i) w st)
  end.

(** A directory and an environment in which nothing fails. *)
Definition healthy : load_env := mkLoadEnv true true Written.

Definition always_written (i : nat) : write_outcome := Written.

(** The number of entries of a record set. *)
Definition entries (d : record_set) : nat :=
  (length (transportation d) + length (energy d) + length (food d)
   + length (purchases d))%nat.

(** The calls that record an activity. *)
Definition is_tracking (c : call) : bool :=
  match c with
  | SetUserPreferences _ => false
  | _ => true
  end.

(** The data [__init__] finds in a file, all going well. *)
Definition loaded {A : Type} (slot : option (file A)) (default_data : A) : A :=
  fst (_load_or_create_data healthy slot default_data).

(** Write-through, for an agent that started from the record set [d0] and
    the preferences [p0]: what was last saved to a file is what the agent
    holds, and what was never saved is as at the start. *)
Definition written_through (d0 : record_set) (p0 : gmap string pref_value)
    (self : agent) : Prop :=
  match last_saved "carbon_footprint.json" (saves self) with
  | Some s => s = SavedCarbon (carbon_data self)
  | None => carbon_data self = d0
  end
  /\ match last_saved "preferences.json" (saves self) with
     | Some s => s = SavedPreferences (user_preferences self)
     | None => user_preferences self = p0
     end.

(** A trip by boat (refused), then the purchase of a kite, on a fresh agent. *)
Definition boat_then_kite : list (datetime * call) :=
  [ (noon, TrackTransportation "boat" 2 1);
    (noon, TrackPurchase "hobby" "Kite" 10 false) ].

Definition after_boat_then_kite : agent :=
  after (track_purchase noon "hobby" "Kite" 10 false
           (after (track_transportation noon "boat" 2 1 fresh))).

(** The directory of a new user, and the same calls on the agent of a
    first start. *)
Definition empty_directory : storage := mkStorage None None.

Definition first_start : agent * storage :=
  __init__ healthy healthy empty_directory.

Definition kite_on_defaults : agent :=
  after (track_purchase noon "hobby" "Kite" 10 false
           (after (track_transportation noon "boat" 2 1 with_defaults))).

(** A directory that holds the records of [bus_then_electricity], and an
    environment in which its files cannot be read. *)
Definition used_directory : storage :=
  mkStorage (Some (Doc (carbon_data bus_then_electricity)))
    (Some (Doc default_preferences)).

Definition unreadable : load_env := mkLoadEnv true false Written.

Definition last_truncated (i : nat) : write_outcome :=
  if (i =? 1)%nat then Truncated else Written.

(** The part of a log, as dates and emissions, that falls in the window
    starting at [start]. *)
Definition in_window (start : string) (log : list (string * float))
    : list (string * float) :=
  List.filter (fun entry => PyStr.ge (fst entry) start) log.

(** [bus_then_electricity] with a trip of the year before stored ahead of
    its records. *)
Definition with_old_trip : agent :=
  mkAgent
    (mkRecords
       (mkTransportation "2023-01-15T08:00:00" "plane" 1000 1 255
        :: transportation (carbon_data bus_then_electricity))
       (energy (carbon_data bus_then_electricity))
       (food (carbon_data bus_then_electricity))
       (purchases (carbon_data bus_then_electricity)))
    (user_preferences bus_then_electricity) [].

(** An agent whose every record is older than a year at [noon]. *)
Definition long_ago : agent :=
  mkAgent
    (mkRecords
       [mkTransportation "2021-05-01T08:00:00" "plane" 1000 1 255]
       [] [] [mkPurchase "2020-01-01T00:00:00" "hobby" "Kite" 10 false 3])
    default_preferences [].

(* ===================================================================== *)
(** ** The report *)
(* ===================================================================== *)

(** The exact value [m * 2^e] in tenths, rounded half to even. *)
Definition tenths (m : positive) (e : Z) : Z :=
  match e with
  | Z.neg p => div_half_even (Z.pos m * 10) (2 ^ Z.pos p)
  | _ => Z.pos m * 2 ^ e * 10
  end.

(** [round(x, 1)] on a float, as [round2] with one decimal. *)
Definition round1 (x : float) : float :=
  match Prim2SF x with
  | S754_finite s m e =>
      match tenths m e with
      | Z.pos n =>
          SF2Prim
            (SFdiv prec emax (S754_finite s n 0) (S754_finite false 10 0))
      | _ => SF2Prim (S754_zero s)
      end
  | _ => x
  end.

(** [str.upper()] on the ASCII letters; the report applies it to a period
    that the summary has accepted: week, month or year. *)
Definition upper_char (c : ascii) : ascii :=
  let n := nat_of_ascii c in
  if (97 <=? n)%nat && (n <=? 122)%nat then ascii_of_nat (n - 32) else c.

Fixpoint upper (s : string) : string :=
  match s with
  | EmptyString => EmptyString
  | String c s' => String (upper_char c) (upper s')
  end.

(** The line feed of the report's lines. *)
Definition nl : string := String (ascii_of_nat 10) "".

(** The text of the report, as its pieces; the date of its second line is
    [strftime] of a clock reading, whose rendering is left to the platform
    (month names, padding of the year). *)
Inductive report_piece : Type :=
| Piece (p : piece)
| Strftime (format : string) (t : datetime).

(** The table [average_footprints] of [generate_report]. *)
Definition average_footprints : PyDict.dict (PyDict.dict Z) :=
  [ ("week",
     [ ("transportation", 23); ("energy", 58); ("food", 35);
       ("purchases", 18) ]);
    ("month",
     [ ("transportation", 92); ("energy", 232); ("food", 140);
       ("purchases", 72) ]);
    ("year",
     [ ("transportation", 1104); ("energy", 2784); ("food", 1680);
       ("purchases", 864) ]) ].

(** [sum(avg.values())] *)
Definition sum_values (avg : PyDict.dict Z) : Z :=
  fold_left Z.add (map snd avg) 0.

(** An entry of [comparison]. *)
Record comparison_entry : Type := mkComparison {
  user : float; average : Z; difference_percent : float
}.

(** [round((user - average) / average * 100, 1) if average > 0 else 0]: the
    [int] is converted in each operation with the float, and the division is
    by a float that is not zero. The 0 of the [else], an [int] that no
    average of the table reaches, stands here as a float. *)
Definition percent_difference (user : float) (average : Z) : result float :=
  if 0 <? average then
    a ← float_of_int average;
    Ret (round1 ((user - a) / a * 100)%float)
  else Ret 0%float.

(** The dict comprehension over the categories of [avg]. *)
Fixpoint compare_each (summary : PyDict.dict float) (avg : PyDict.dict Z)
    : result (PyDict.dict comparison_entry) :=
  match avg with
  | [] => Ret []
  | (cat, a) :: rest =>
      d ← percent_difference (item cat summary) a;
      comparison ← compare_each summary rest;
      Ret ((cat, mkComparison (item cat summary) a d) :: comparison)
  end.

(** [comparison]: empty for a period that is not in the table, and with the
    key "total" added to those of the categories otherwise. *)
Definition comparison_of (time_period : string) (summary : PyDict.dict float)
    : result (PyDict.dict comparison_entry) :=
  match PyDict.get time_period average_footprints with
  | None => Ret []
  | Some avg =>
      comparison ← compare_each summary avg;
      d ← percent_difference (item "total" summary) (sum_values avg);
      Ret (PyDict.set "total"
             (mkComparison (item "total" summary) (sum_values avg) d)
             comparison)
  end.

(** [comparison["total"]["difference_percent"]], the key being present. *)
Definition total_difference (comparison : PyDict.dict comparison_entry)
    : float :=
  match PyDict.get "total" comparison with
  | Some c => difference_percent c
  | None => 0%float
  end.

(** The first two lines of the text. *)
Definition heading (time_period : string) (now : datetime)
    : list report_piece :=
  [ Piece (Lit "ENVIRONMENTAL IMPACT REPORT - ");
    Piece (Lit (upper time_period)); Piece (Lit nl);
    Piece (Lit "Generated on "); Strftime "%B %d, %Y" now;
    Piece (Lit (nl +:+ nl)) ].

(** The lines of the summary. *)
Definition summary_lines (summary : PyDict.dict float) : fstring :=
  [ Lit ("YOUR CARBON FOOTPRINT SUMMARY:" +:+ nl);
    Lit "- Transportation: "; Num (item "transportation" summary);
    Lit (" kg CO2e" +:+ nl);
    Lit "- Home Energy: "; Num (item "energy" summary);
    Lit (" kg CO2e" +:+ nl);
    Lit "- Food Choices: "; Num (item "food" summary);
    Lit (" kg CO2e" +:+ nl);
    Lit "- Purchases: "; Num (item "purchases" summary);
    Lit (" kg CO2e" +:+ nl);
    Lit "- TOTAL: "; Num (item "total" summary);
    Lit (" kg CO2e" +:+ nl +:+ nl) ].

(** The verdict on the difference to the average total: [if diff < 0],
    [elif diff > 0], [else]. *)
Definition verdict (diff : float) : fstring :=
  if PrimFloat.ltb diff 0 then
    [ Lit "Your footprint is "; Num (PrimFloat.abs diff);
      Lit ("% LOWER than average. Great job!" +:+ nl +:+ nl) ]
  else if PrimFloat.ltb 0 diff then
    [ Lit "Your footprint is "; Num diff;
      Lit ("% HIGHER than average. There's room for improvement."
           +:+ nl +:+ nl) ]
  else [ Lit ("Your footprint is about AVERAGE." +:+ nl +:+ nl) ].

(** [if comparison: ...]: the section that compares with the average. *)
Definition comparison_lines (comparison : PyDict.dict comparison_entry)
    : fstring :=
  match comparison with
  | [] => []
  | _ =>
      Lit ("COMPARISON TO AVERAGE:" +:+ nl)
      :: verdict (total_difference comparison)
  end.

(** [for i, tip in enumerate(tips, i): text_report += f"{i}. {tip}\n"] *)
Fixpoint tip_lines (i : Z) (tips : list string) : fstring :=
  match tips with
  | [] => []
  | tip :: rest =>
      [Int i; Lit ". "; Lit tip; Lit nl] ++ tip_lines (i + 1) rest
  end.

(** The text of a report, from the summary, the comparison and the tips. *)
Definition text_report (time_period : string) (now : datetime)
    (summary : PyDict.dict float)
    (comparison : PyDict.dict comparison_entry) (tips : list string)
    : list report_piece :=
  heading time_period now
  ++ map Piece
       (summary_lines summary ++ comparison_lines comparison
        ++ Lit ("PERSONALIZED IMPROVEMENT TIPS:" +:+ nl) :: tip_lines 1 tips).

(** [generate_report(time_period="month")]. The clock is read for the
    summary ([now]), inside [get_personalized_tips] ([now_tips]) and for the
    date of the text ([now_text]); [report_data], which the method builds
    and drops, is left out. *)
Definition generate_report (fuel : nat) (draws : nat -> nat)
    (now now_tips now_text : datetime) (time_period : string) (self : agent)
    : result (list report_piece) :=
  footprint ← get_carbon_footprint_summary now time_period self;
  match footprint with
  | Unsupported msg =>
      Ret (map Piece (Lit "Couldn't generate report: " :: msg))
  | Summary summary =>
      tips ← get_personalized_tips fuel draws now_tips None 5 self;
      comparison ← comparison_of time_period summary;
      Ret (text_report time_period now_text summary comparison tips)
  end.

(* ===================================================================== *)
(** * Theorems *)
(* ===================================================================== *)

Section dict_facts.
Context {V : Type}.
Implicit Types (d : PyDict.dict V) (k : string) (v : V).

Lemma get_set_same k v d : PyDict.get k (PyDict.set k v d) = Some v.
Proof.
  induction d as [|[k' v'] d IH]; simpl.
  - by rewrite String.eqb_refl.
  - destruct (String.eqb k k') eqn:E; simpl; rewrite E; [done | exact IH].
Qed.

Lemma set_set k v1 v2 d :
  PyDict.set k v2 (PyDict.set k v1 d) = PyDict.set k v2 d.
Proof.
  induction d as [|[k' v'] d IH]; simpl.
  - by rewrite String.eqb_refl.
  - destruct (String.eqb k k') eqn:E; simpl; rewrite E; [done | by rewrite IH].
Qed.

Lemma set_get k v d : PyDict.get k d = Some v -> PyDict.set k v d = d.
Proof.
  induction d as [|[k' v'] d IH]; simpl; [done|].
  destruct (String.eqb k k') eqn:E.
  - by intros [= ->].
  - intros H. by rewrite IH.
Qed.

Lemma mem_set k v d : PyDict.mem k (PyDict.set k v d) = true.
Proof. unfold PyDict.mem. by rewrite get_set_same. Qed.

Lemma get_keys k v d : PyDict.get k d = Some v -> k ∈ PyDict.keys d.
Proof.
  induction d as [|[k' v'] d IH]; simpl; [done|].
  destruct (String.eqb k k') eqn:E.
  - apply String.eqb_eq in E as ->. intros _. apply elem_of_cons. by left.
  - intros H. apply elem_of_cons. right. by apply IH.
Qed.

End dict_facts.

Lemma item_set k v d : item k (PyDict.set k v d) = v.
Proof. unfold item. by rewrite get_set_same. Qed.

(** A loop of the summary adds, onto the value its key had, the in-window
    emissions of the log, in the order of the log. *)
Lemma accumulate_fold key start log d :
  PyDict.mem key d = true ->
  accumulate key start log d =
  PyDict.set key
    (fold_left PrimFloat.add
       (map snd (List.filter (fun entry => PyStr.ge (fst entry) start) log))
       (item key d))
    d.
Proof.
  unfold accumulate. revert d.
  induction log as [|[date x] log IH]; intros d Hmem; simpl.
  - unfold PyDict.mem in Hmem. unfold item.
    destruct (PyDict.get key d) as [v|] eqn:E; [|done].
    simpl. symmetry. by apply set_get.
  - destruct (PyStr.ge date start); simpl.
    + rewrite IH by apply mem_set. by rewrite item_set, set_set.
    + by apply IH.
Qed.

(** The [if]/[elif] chain computes the start of the window of the
    specification's periods. *)
Lemma start_date_period now time_period days start :
  Spec.period_days time_period = Some days ->
  sub_days now days = Ret start ->
  start_date now time_period = Ret (Some (isoformat start)).
Proof.
  unfold Spec.period_days, start_date. intros Hp Hs.
  repeat (destruct (String.eqb time_period _));
    inversion Hp; subst; by rewrite Hs.
Qed.

(** The summary in closed form, from the start of the window the period
    chain computed: the four loops and the rounding, over the window sums of
    the specification. *)
Lemma summary_closed_form now time_period s self :
  start_date now time_period = Ret (Some s) ->
  get_carbon_footprint_summary now time_period self =
  Ret (Summary
         [ ("transportation",
            round2 (Spec.window_sum s
                      (map (fun e => (t_date e, t_emissions e))
                         (transportation (carbon_data self)))));
           ("energy",
            round2 (Spec.window_sum s
                      (map (fun e => (e_date e, e_emissions e))
                         (energy (carbon_data self)))));
           ("food",
            round2 (Spec.window_sum s
                      (map (fun e => (f_date e, f_total_emissions e))
                         (food (carbon_data self)))));
           ("purchases",
            round2 (Spec.window_sum s
                      (map (fun e => (p_date e, p_emissions e))
                         (purchases (carbon_data self)))));
           ("total",
            round2 (Spec.window_sum s
                      (map (fun e => (t_date e, t_emissions e))
                         (transportation (carbon_data self)))
                    + Spec.window_sum s
                        (map (fun e => (e_date e, e_emissions e))
                           (energy (carbon_data self)))
                    + Spec.window_sum s
                        (map (fun e => (f_date e, f_total_emissions e))
                           (food (carbon_data self)))
                    + Spec.window_sum s
                        (map (fun e => (p_date e, p_emissions e))
                           (purchases (carbon_data self))))%float) ]).
Proof.
  intros Hs. unfold get_carbon_footprint_summary. rewrite Hs. simpl mbind.
  rewrite (accumulate_fold "transportation") by reflexivity.
  cbn [PyDict.set PyDict.get item default String.eqb Ascii.eqb Bool.eqb].
  rewrite (accumulate_fold "energy") by reflexivity.
  cbn [PyDict.set PyDict.get item default String.eqb Ascii.eqb Bool.eqb].
  rewrite (accumulate_fold "food") by reflexivity.
  cbn [PyDict.set PyDict.get item default String.eqb Ascii.eqb Bool.eqb].
  rewrite (accumulate_fold "purchases") by reflexivity.
  cbn [PyDict.set PyDict.get item default String.eqb Ascii.eqb Bool.eqb].
  reflexivity.
Qed.

(** C1 (as amended): for a period among "week", "month" and "year" whose
    window start [now - period] exists, the summary is the mapping over the
    keys transportation, energy, food, purchases, total, in which each
    category value is the sum of the emissions of exactly the entries of that
    category whose timestamp is [>=] the start (food entries through their
    [total_emissions]) rounded to 2 decimals, and "total" is the sum of the
    four unrounded category sums, rounded to 2 decimals. *)
Theorem summary_rounds_window_sums now time_period days start self :
  Spec.period_days time_period = Some days ->
  sub_days now days = Ret start ->
  let s := isoformat start in
  let T := Spec.window_sum s
             (map (fun e => (t_date e, t_emissions e))
                (transportation (carbon_data self))) in
  let E := Spec.window_sum s
             (map (fun e => (e_date e, e_emissions e))
                (energy (carbon_data self))) in
  let F := Spec.window_sum s
             (map (fun e => (f_date e, f_total_emissions e))
                (food (carbon_data self))) in
  let P := Spec.window_sum s
             (map (fun e => (p_date e, p_emissions e))
                (purchases (carbon_data self))) in
  get_carbon_footprint_summary now time_period self =
  Ret (Summary
         [ ("transportation", round2 T); ("energy", round2 E);
           ("food", round2 F); ("purchases", round2 P);
           ("total", round2 (T + E + F + P)%float) ]).
Proof.
  intros Hp Hs s T E F P.
  apply summary_closed_form.
  exact (start_date_period now time_period days start Hp Hs).
Qed.

Lemma summary_rounds_window_sums_witness :
  get_carbon_footprint_summary noon "month" bus_then_electricity =
  Ret (Summary
         [ ("transportation", 0.1%float); ("energy", 0.2%float);
           ("food", 0%float); ("purchases", 0%float); ("total", 0.3%float) ]).
Proof.
  pose proof (summary_rounds_window_sums noon "month" 30
                (mkDatetime 2024 1 31 12 0 0 0) bus_then_electricity
                eq_refl eq_refl) as H.
  vm_compute in H. exact H.
Defined.

(** C1 (as stated) fails: on a stored record set with emissions 0.004 in two
    categories the returned values are 0.0, 0.0, 0, 0 and total 0.01; and on
    the record set the program itself recorded for 1 km by bus and 0.86 kWh
    of electricity they are 0.1, 0.2, 0, 0 and total 0.3, while
    0.1 + 0.2 + 0 + 0 is 0.30000000000000004 in binary64. *)
Lemma summary_total_differs_from_sum_of_values :
  (get_carbon_footprint_summary noon "month" third_decimal =
   Ret (Summary
          [ ("transportation", 0%float); ("energy", 0%float);
            ("food", 0%float); ("purchases", 0%float);
            ("total", 0.01%float) ])
   /\ Spec.total_is_sum_of_values
        [ ("transportation", 0%float); ("energy", 0%float);
          ("food", 0%float); ("purchases", 0%float);
          ("total", 0.01%float) ] = false)
  /\ (get_carbon_footprint_summary noon "month" bus_then_electricity =
      Ret (Summary
             [ ("transportation", 0.1%float); ("energy", 0.2%float);
               ("food", 0%float); ("purchases", 0%float);
               ("total", 0.3%float) ])
      /\ Spec.total_is_sum_of_values
           [ ("transportation", 0.1%float); ("energy", 0.2%float);
             ("food", 0%float); ("purchases", 0%float);
             ("total", 0.3%float) ] = false).
Proof. repeat split; vm_compute; reflexivity. Qed.

(* --------------------------------------------------------------------- *)
(** ** Transportation *)
(* --------------------------------------------------------------------- *)

(** C3: a car trip records round(0.192 * D / max(1, P), 2), which for
    [1 <= P] is round(0.192 * D / P, 2), [p] being the passenger count as a
    float; every other recognized mode records round(factor * D, 2) whatever
    the passenger count, the factor being 0 for bicycle and walk. Recorded
    means: the transportation log is the old one followed by the entry, the
    three other logs and the preferences are as they were, and the trace of
    saves has one more save, of the new record set to the carbon file. *)
Theorem track_transportation_emissions now D P self :
  (forall p, float_of_int (Z.max 1 P) = Ret p ->
     exists msg self',
       track_transportation now "car" D P self = Ret (msg, self')
       /\ transportation (carbon_data self') =
          transportation (carbon_data self)
          ++ [mkTransportation (isoformat now) "car" D P
                (round2 (0.192 * D / p)%float)]
       /\ energy (carbon_data self') = energy (carbon_data self)
       /\ food (carbon_data self') = food (carbon_data self)
       /\ purchases (carbon_data self') = purchases (carbon_data self)
       /\ user_preferences self' = user_preferences self
       /\ saves self' =
          saves self
          ++ [("carbon_footprint.json", SavedCarbon (carbon_data self'))])
  /\ (forall p, 1 <= P -> float_of_int P = Ret p ->
        exists msg self',
          track_transportation now "car" D P self = Ret (msg, self')
          /\ transportation (carbon_data self') =
             transportation (carbon_data self)
             ++ [mkTransportation (isoformat now) "car" D P
                   (round2 (0.192 * D / p)%float)]
          /\ energy (carbon_data self') = energy (carbon_data self)
          /\ food (carbon_data self') = food (carbon_data self)
          /\ purchases (carbon_data self') = purchases (carbon_data self)
          /\ user_preferences self' = user_preferences self
          /\ saves self' =
             saves self
             ++ [("carbon_footprint.json", SavedCarbon (carbon_data self'))])
  /\ (forall mode factor,
        In (mode, factor)
          [ ("bus", 0.105%float); ("train", 0.041%float);
            ("bicycle", 0%float); ("walk", 0%float);
            ("plane", 0.255%float) ] ->
        exists msg self',
          track_transportation now mode D P self = Ret (msg, self')
          /\ transportation (carbon_data self') =
             transportation (carbon_data self)
             ++ [mkTransportation (isoformat now) mode D P
                   (round2 (factor * D)%float)]
          /\ energy (carbon_data self') = energy (carbon_data self)
          /\ food (carbon_data self') = food (carbon_data self)
          /\ purchases (carbon_data self') = purchases (carbon_data self)
          /\ user_preferences self' = user_preferences self
          /\ saves self' =
             saves self
             ++ [("carbon_footprint.json", SavedCarbon (carbon_data self'))]).
Proof.
  assert (Hcar : forall p, float_of_int (Z.max 1 P) = Ret p ->
            exists msg self',
              track_transportation now "car" D P self = Ret (msg, self')
              /\ transportation (carbon_data self') =
                 transportation (carbon_data self)
                 ++ [mkTransportation (isoformat now) "car" D P
                       (round2 (0.192 * D / p)%float)]
              /\ energy (carbon_data self') = energy (carbon_data self)
              /\ food (carbon_data self') = food (carbon_data self)
              /\ purchases (carbon_data self') = purchases (carbon_data self)
              /\ user_preferences self' = user_preferences self
              /\ saves self' =
                 saves self
                 ++ [("carbon_footprint.json",
                      SavedCarbon (carbon_data self'))]).
  { intros p Hp. unfold track_transportation. simpl PyDict.get.
    simpl String.eqb. cbv iota. rewrite Hp. simpl mbind.
    eexists _, _. split; [reflexivity|]. by repeat split. }
  split; [exact Hcar|]. split.
  - intros p HP Hp. apply Hcar. by rewrite Z.max_r.
  - intros mode factor Hin. simpl in Hin.
    destruct Hin as [H|[H|[H|[H|[H|[]]]]]]; inversion H; subst;
      (eexists _, _; split; [reflexivity|]; by repeat split).
Qed.

(** Three to a car for 15.5 km, and 100 km by plane with a passenger count
    of 3 that is not read, each after the two records of
    [bus_then_electricity]. *)
Lemma track_transportation_emissions_witness :
  (exists msg self',
     track_transportation noon "car" 15.5 3 bus_then_electricity
     = Ret (msg, self')
     /\ transportation (carbon_data self') =
        transportation (carbon_data bus_then_electricity)
        ++ [mkTransportation (isoformat noon) "car" 15.5 3 0.99]
     /\ energy (carbon_data self') = energy (carbon_data bus_then_electricity)
     /\ food (carbon_data self') = food (carbon_data bus_then_electricity)
     /\ purchases (carbon_data self') =
        purchases (carbon_data bus_then_electricity)
     /\ user_preferences self' = user_preferences bus_then_electricity
     /\ saves self' =
        saves bus_then_electricity
        ++ [("carbon_footprint.json", SavedCarbon (carbon_data self'))])
  /\ (exists msg self',
        track_transportation noon "plane" 100 3 bus_then_electricity
        = Ret (msg, self')
        /\ transportation (carbon_data self') =
           transportation (carbon_data bus_then_electricity)
           ++ [mkTransportation (isoformat noon) "plane" 100 3 25.5]
        /\ energy (carbon_data self') =
           energy (carbon_data bus_then_electricity)
        /\ food (carbon_data self') = food (carbon_data bus_then_electricity)
        /\ purchases (carbon_data self') =
           purchases (carbon_data bus_then_electricity)
        /\ user_preferences self' = user_preferences bus_then_electricity
        /\ saves self' =
           saves bus_then_electricity
           ++ [("carbon_footprint.json", SavedCarbon (carbon_data self'))]).
Proof.
  destruct (track_transportation_emissions noon 15.5 3 bus_then_electricity)
    as (_ & Hcar & _).
  destruct (track_transportation_emissions noon 100 3 bus_then_electricity)
    as (_ & _ & Hoth).
  split.
  - exact (Hcar 3%float ltac:(lia) eq_refl).
  - apply (Hoth "plane" 0.255%float). simpl. tauto.
Defined.

(* --------------------------------------------------------------------- *)
(** ** Energy *)
(* --------------------------------------------------------------------- *)

Lemma energy_type_recognized type :
  In type ["electricity"; "natural_gas"; "heating_oil"; "propane";
           "renewable"] ->
  exists factor, PyDict.get type energy_factors = Some factor.
Proof.
  simpl. intros [<-|[<-|[<-|[<-|[<-|[]]]]]]; by eexists.
Qed.

(** A unit other than "kWh", therms of natural gas apart, is refused with the
    guidance message; nothing is appended and nothing is saved. *)
Lemma energy_unit_refused now type amount unit self :
  In type ["electricity"; "natural_gas"; "heating_oil"; "propane";
           "renewable"] ->
  unit <> "kWh" ->
  ~ (unit = "therms" /\ type = "natural_gas") ->
  track_energy_usage now type amount unit self =
  Ret ([Lit "I currently only support kWh units. Please convert ";
        Lit unit; Lit " to kWh."], self).
Proof.
  intros Htype Hunit Hconv. unfold track_energy_usage.
  destruct (energy_type_recognized type Htype) as [factor ->].
  destruct (String.eqb_spec unit "therms") as [Hu|Hu];
    destruct (String.eqb_spec type "natural_gas") as [Ht|Ht];
    try (exfalso; apply Hconv; by split); simpl andb; cbv iota;
    by destruct (String.eqb_spec unit "kWh").
Qed.

(** C4: therms of natural gas are first multiplied by 29.3001, then the
    factor 0.181 per kWh is applied and the entry (in kWh) is recorded: the
    energy log is the old one followed by the entry, the three other logs
    and the preferences are as they were, and the trace of saves has one
    more save, of the new record set to the carbon file. For a recognized
    type, every other unit that is not "kWh" gets the guidance message and
    no entry is recorded: the agent is the same, saves included. *)
Theorem track_energy_usage_units now amount self :
  (exists msg self',
     track_energy_usage now "natural_gas" amount "therms" self
     = Ret (msg, self')
     /\ energy (carbon_data self') =
        energy (carbon_data self)
        ++ [mkEnergy (isoformat now) "natural_gas"
              (amount * 29.3001)%float "kWh"
              (round2 (0.181 * (amount * 29.3001))%float)]
     /\ transportation (carbon_data self') = transportation (carbon_data self)
     /\ food (carbon_data self') = food (carbon_data self)
     /\ purchases (carbon_data self') = purchases (carbon_data self)
     /\ user_preferences self' = user_preferences self
     /\ saves self' =
        saves self
        ++ [("carbon_footprint.json", SavedCarbon (carbon_data self'))])
  /\ (forall type unit,
        In type ["electricity"; "natural_gas"; "heating_oil"; "propane";
                 "renewable"] ->
        unit <> "kWh" ->
        ~ (unit = "therms" /\ type = "natural_gas") ->
        track_energy_usage now type amount unit self =
        Ret ([Lit "I currently only support kWh units. Please convert ";
              Lit unit; Lit " to kWh."], self)).
Proof.
  split.
  - eexists _, _. split; [reflexivity|]. by repeat split.
  - intros type unit. apply energy_unit_refused.
Qed.

(** Ten therms of natural gas (293.001 kWh, 53.03 kg) after the two records
    of [bus_then_electricity], and ten therms of electricity, refused. *)
Lemma track_energy_usage_units_witness :
  (exists msg self',
     track_energy_usage noon "natural_gas" 10 "therms" bus_then_electricity
     = Ret (msg, self')
     /\ energy (carbon_data self') =
        energy (carbon_data bus_then_electricity)
        ++ [mkEnergy (isoformat noon) "natural_gas" 293.001 "kWh" 53.03]
     /\ transportation (carbon_data self') =
        transportation (carbon_data bus_then_electricity)
     /\ food (carbon_data self') = food (carbon_data bus_then_electricity)
     /\ purchases (carbon_data self') =
        purchases (carbon_data bus_then_electricity)
     /\ user_preferences self' = user_preferences bus_then_electricity
     /\ saves self' =
        saves bus_then_electricity
        ++ [("carbon_footprint.json", SavedCarbon (carbon_data self'))])
  /\ track_energy_usage noon "electricity" 10 "therms" bus_then_electricity =
     Ret ([Lit "I currently only support kWh units. Please convert ";
           Lit "therms"; Lit " to kWh."], bus_then_electricity).
Proof.
  destruct (track_energy_usage_units noon 10 bus_then_electricity)
    as [Htherms Hrefused].
  split.
  - exact Htherms.
  - apply (Hrefused "electricity" "therms").
    + simpl. tauto.
    + discriminate.
    + intros [_ H]. discriminate H.
Defined.

(** The specification's example: 10 therms of natural gas are 293.001 kWh and
    53.03 kg, the one entry of the energy log of a new agent. *)
Example ten_therms :
  exists msg self',
    track_energy_usage noon "natural_gas" 10 "therms" fresh = Ret (msg, self')
    /\ energy (carbon_data self') =
       [mkEnergy "2024-03-01T12:00:00" "natural_gas" 293.001 "kWh" 53.03].
Proof. eexists _, _. split; vm_compute; reflexivity. Qed.

(* --------------------------------------------------------------------- *)
(** ** Food *)
(* --------------------------------------------------------------------- *)

(** One turn of the loop of [track_food], in the specification's terms. *)
Lemma food_step_spec total tracked it :
  food_step (total, tracked) it =
  (match Spec.contribution it with
   | Some e => (total + e)%float
   | None => total
   end,
   tracked ++ match Spec.tracked it with Some k => [k] | None => [] end).
Proof.
  unfold food_step, Spec.contribution, Spec.tracked, Spec.recognized.
  destruct (i_type it) as [food_type|]; cbn [mbind option_bind];
    [|by rewrite app_nil_r].
  generalize (PyDict.get food_type food_factors). intros [factor|];
    cbn [mbind option_bind fst snd]; [|by rewrite app_nil_r].
  by destruct (i_local it), (i_organic it).
Qed.

(** The loop of [track_food] adds the contributions of the recognized items
    in order and lists their lines; the other items change nothing. *)
Lemma food_loop items total tracked :
  fold_left food_step items (total, tracked) =
  (fold_left PrimFloat.add (omap Spec.contribution items) total,
   tracked ++ omap Spec.tracked items).
Proof.
  revert total tracked.
  induction items as [|it items IH]; intros total tracked.
  - simpl. by rewrite app_nil_r.
  - cbn [fold_left omap list_omap]. rewrite food_step_spec, IH.
    destruct (Spec.contribution it) as [e|] eqn:Ec;
      destruct (Spec.tracked it) as [k|] eqn:Ek;
      cbn [fold_left]; rewrite <- ?app_assoc, ?app_nil_r; done.
Qed.

(** C5: the single composite entry of [track_food] lists the recognized items
    in order, each with its emissions (factor x amount, x0.8 if local, x0.9
    if organic, both in turn when both flags are set) rounded to 2 decimals;
    an item of unrecognized type is left out and adds nothing; and
    [total_emissions] is the rounded sum of the unrounded emissions of the
    recognized items. The entry is recorded, and it alone: the food log is
    the old one followed by the entry, the three other logs and the
    preferences are as they were, and the trace of saves has one more save,
    of the new record set to the carbon file. *)
Theorem track_food_composite now items self :
  exists msg self',
    track_food now items self = Ret (msg, self')
    /\ food (carbon_data self') =
       food (carbon_data self)
       ++ [mkFood (isoformat now) (omap Spec.tracked items)
             (round2
                (fold_left PrimFloat.add
                   (omap Spec.contribution items) 0%float))]
    /\ transportation (carbon_data self') = transportation (carbon_data self)
    /\ energy (carbon_data self') = energy (carbon_data self)
    /\ purchases (carbon_data self') = purchases (carbon_data self)
    /\ user_preferences self' = user_preferences self
    /\ saves self' =
       saves self
       ++ [("carbon_footprint.json", SavedCarbon (carbon_data self'))].
Proof.
  unfold track_food. rewrite food_loop.
  eexists _, _. split; [reflexivity|]. by repeat split.
Qed.

(** The specification's example: 1.2 kg of local organic vegetables are
    1.73 kg, and an item of unknown type is left out; the entry follows the
    records of [bus_then_electricity], which has no food entry. *)
Example vegetables_and_unknown :
  exists msg self',
    track_food noon
      [ mkFoodItem (Some "vegetables") 1.2 true true;
        mkFoodItem (Some "seitan") 1 false false ] bus_then_electricity =
    Ret (msg, self')
    /\ food (carbon_data self') =
       [ mkFood "2024-03-01T12:00:00"
           [mkTracked "vegetables" 1.2 true true 1.73] 1.73 ]
    /\ transportation (carbon_data self') =
       transportation (carbon_data bus_then_electricity)
    /\ energy (carbon_data self') = energy (carbon_data bus_then_electricity)
    /\ length (saves self') = 3%nat.
Proof. eexists _, _. repeat split; vm_compute; reflexivity. Qed.

(** Both flags set: the two reductions are applied in turn, as two binary64
    multiplications (0.72 is their product over the reals). For 0.625 kg of
    local organic pork the recorded value is 5.45. *)
Example local_organic_pork :
  Spec.tracked (mkFoodItem (Some "pork") 0.625 true true) =
  Some (mkTracked "pork" 0.625 true true 5.45)
  /\ round2 (12.1 * 0.625 * 0.8 * 0.9)%float = 5.45%float.
Proof. split; vm_compute; reflexivity. Qed.

(* --------------------------------------------------------------------- *)
(** ** Purchases *)
(* --------------------------------------------------------------------- *)

Lemma purchase_category_unknown c :
  ~ In c ["clothing"; "electronics"; "furniture"; "household"; "hobby"] ->
  PyDict.mem c purchase_factors = false.
Proof.
  intros Hnot. unfold PyDict.mem.
  destruct (PyDict.get c purchase_factors) as [v|] eqn:E; [|done].
  exfalso. apply Hnot. apply get_keys in E. by apply list_elem_of_In.
Qed.

(** C6: the category is lower-cased; one of the five categories is kept and
    its factor applied, any other becomes "household" with factor 0.4; the
    recorded emissions are round(factor * price, 2), and
    round(factor * price * 0.7, 2) for an eco-friendly purchase. Recorded
    means: the purchases log is the old one followed by the entry, the three
    other logs and the preferences are as they were, and the trace of saves
    has one more save, of the new record set to the carbon file. *)
Theorem track_purchase_emissions now category description price eco self :
  (forall c factor,
     In (c, factor)
       [ ("clothing", 0.5%float); ("electronics", 0.7%float);
         ("furniture", 0.8%float); ("household", 0.4%float);
         ("hobby", 0.3%float) ] ->
     PyStr.lower category = c ->
     exists msg self',
       track_purchase now category description price eco self
       = Ret (msg, self')
       /\ purchases (carbon_data self') =
          purchases (carbon_data self)
          ++ [mkPurchase (isoformat now) c description price eco
                (round2 (if eco then (factor * price * 0.7)%float
                         else (factor * price)%float))]
       /\ transportation (carbon_data self') =
          transportation (carbon_data self)
       /\ energy (carbon_data self') = energy (carbon_data self)
       /\ food (carbon_data self') = food (carbon_data self)
       /\ user_preferences self' = user_preferences self
       /\ saves self' =
          saves self
          ++ [("carbon_footprint.json", SavedCarbon (carbon_data self'))])
  /\ (~ In (PyStr.lower category)
          ["clothing"; "electronics"; "furniture"; "household"; "hobby"] ->
      exists msg self',
        track_purchase now category description price eco self
        = Ret (msg, self')
        /\ purchases (carbon_data self') =
           purchases (carbon_data self)
           ++ [mkPurchase (isoformat now) "household" description price eco
                 (round2 (if eco then (0.4 * price * 0.7)%float
                          else (0.4 * price)%float))]
        /\ transportation (carbon_data self') =
           transportation (carbon_data self)
        /\ energy (carbon_data self') = energy (carbon_data self)
        /\ food (carbon_data self') = food (carbon_data self)
        /\ user_preferences self' = user_preferences self
        /\ saves self' =
           saves self
           ++ [("carbon_footprint.json", SavedCarbon (carbon_data self'))]).
Proof.
  split.
  - intros c factor Hin Hlow. unfold track_purchase. simpl in Hin.
    destruct Hin as [H|[H|[H|[H|[H|[]]]]]]; injection H as <- <-;
      rewrite Hlow; destruct eco;
      (eexists _, _; split; [reflexivity|]; by repeat split).
  - intros Hnot. unfold track_purchase.
    rewrite (purchase_category_unknown _ Hnot).
    destruct eco; (eexists _, _; split; [reflexivity|]; by repeat split).
Qed.

(** A smartphone under "ElecTronics" and an eco-friendly kite under "Toys",
    each after the two records of [bus_then_electricity]. *)
Lemma track_purchase_emissions_witness :
  (exists msg self',
     track_purchase noon "ElecTronics" "Smartphone" 800 false
       bus_then_electricity = Ret (msg, self')
     /\ purchases (carbon_data self') =
        purchases (carbon_data bus_then_electricity)
        ++ [mkPurchase (isoformat noon) "electronics" "Smartphone" 800
              false 560]
     /\ transportation (carbon_data self') =
        transportation (carbon_data bus_then_electricity)
     /\ energy (carbon_data self') = energy (carbon_data bus_then_electricity)
     /\ food (carbon_data self') = food (carbon_data bus_then_electricity)
     /\ user_preferences self' = user_preferences bus_then_electricity
     /\ saves self' =
        saves bus_then_electricity
        ++ [("carbon_footprint.json", SavedCarbon (carbon_data self'))])
  /\ (exists msg self',
        track_purchase noon "Toys" "Kite" 10 true bus_then_electricity
        = Ret (msg, self')
        /\ purchases (carbon_data self') =
           purchases (carbon_data bus_then_electricity)
           ++ [mkPurchase (isoformat noon) "household" "Kite" 10 true 2.8]
        /\ transportation (carbon_data self') =
           transportation (carbon_data bus_then_electricity)
        /\ energy (carbon_data self') =
           energy (carbon_data bus_then_electricity)
        /\ food (carbon_data self') = food (carbon_data bus_then_electricity)
        /\ user_preferences self' = user_preferences bus_then_electricity
        /\ saves self' =
           saves bus_then_electricity
           ++ [("carbon_footprint.json", SavedCarbon (carbon_data self'))]).
Proof.
  split.
  - apply (proj1 (track_purchase_emissions noon "ElecTronics" "Smartphone"
                    800 false bus_then_electricity) "electronics" 0.7%float).
    + simpl. tauto.
    + reflexivity.
  - apply (proj2 (track_purchase_emissions noon "Toys" "Kite" 10 true
                    bus_then_electricity)).
    simpl. intros [H|[H|[H|[H|[H|[]]]]]]; discriminate H.
Defined.

(* --------------------------------------------------------------------- *)
(** ** Rejected input *)
(* --------------------------------------------------------------------- *)

(** The [else] branch of the period chain: no start of a window, and no
    date arithmetic. *)
Lemma start_date_unsupported now time_period :
  ~ In time_period ["week"; "month"; "year"] ->
  start_date now time_period = Ret None.
Proof.
  intros Hnot. unfold start_date.
  destruct (String.eqb_spec time_period "week") as [->|_];
    [exfalso; apply Hnot; simpl; tauto|].
  destruct (String.eqb_spec time_period "month") as [->|_];
    [exfalso; apply Hnot; simpl; tauto|].
  destruct (String.eqb_spec time_period "year") as [->|_];
    [exfalso; apply Hnot; simpl; tauto|].
  reflexivity.
Qed.

(** C7: a time period other than "week", "month" and "year" is answered by
    the error message, as a returned value: no summary is computed and
    nothing is raised. *)
Theorem summary_unsupported_period now time_period self :
  ~ In time_period ["week"; "month"; "year"] ->
  get_carbon_footprint_summary now time_period self =
  Ret (Unsupported
         [Lit "Unsupported time period: "; Lit time_period;
          Lit ". Please use 'week', 'month', or 'year'."]).
Proof.
  intros Hnot. unfold get_carbon_footprint_summary.
  by rewrite (start_date_unsupported now time_period Hnot).
Qed.

Lemma summary_unsupported_period_witness :
  get_carbon_footprint_summary noon "decade" bus_then_electricity =
  Ret (Unsupported
         [Lit "Unsupported time period: "; Lit "decade";
          Lit ". Please use 'week', 'month', or 'year'."]).
Proof.
  apply summary_unsupported_period.
  simpl. intros [H|[H|[H|[]]]]; discriminate H.
Defined.

Lemma transportation_mode_unknown mode :
  ~ In mode ["car"; "bus"; "train"; "bicycle"; "walk"; "plane"] ->
  PyDict.get mode transportation_factors = None.
Proof.
  intros Hnot.
  destruct (PyDict.get mode transportation_factors) as [v|] eqn:E; [|done].
  exfalso. apply Hnot. apply get_keys in E. by apply list_elem_of_In.
Qed.

Lemma energy_type_unknown type :
  ~ In type ["electricity"; "natural_gas"; "heating_oil"; "propane";
             "renewable"] ->
  PyDict.get type energy_factors = None.
Proof.
  intros Hnot.
  destruct (PyDict.get type energy_factors) as [v|] eqn:E; [|done].
  exfalso. apply Hnot. apply get_keys in E. by apply list_elem_of_In.
Qed.

(** C8: a call refused for its input (an unrecognized transportation mode, an
    unrecognized energy type, an unsupported energy unit, an unsupported time
    period) returns its message as a value and leaves the agent as it was:
    the four logs, the preferences and the trace of saves are those of
    before the call. The summary never writes to the agent at all. *)
Theorem rejected_input_changes_nothing now self :
  (forall mode distance passengers,
     ~ In mode ["car"; "bus"; "train"; "bicycle"; "walk"; "plane"] ->
     track_transportation now mode distance passengers self =
     Ret ([Lit "Sorry, I don't recognize '"; Lit mode;
           Lit "' as a transportation mode."], self))
  /\ (forall type amount unit,
        ~ In type ["electricity"; "natural_gas"; "heating_oil"; "propane";
                   "renewable"] ->
        track_energy_usage now type amount unit self =
        Ret ([Lit "Sorry, I don't recognize '"; Lit type;
              Lit "' as an energy type."], self))
  /\ (forall type amount unit,
        In type ["electricity"; "natural_gas"; "heating_oil"; "propane";
                 "renewable"] ->
        unit <> "kWh" ->
        ~ (unit = "therms" /\ type = "natural_gas") ->
        track_energy_usage now type amount unit self =
        Ret ([Lit "I currently only support kWh units. Please convert ";
              Lit unit; Lit " to kWh."], self))
  /\ (forall time_period,
        ~ In time_period ["week"; "month"; "year"] ->
        get_carbon_footprint_summary now time_period self =
        Ret (Unsupported
               [Lit "Unsupported time period: "; Lit time_period;
                Lit ". Please use 'week', 'month', or 'year'."])).
Proof.
  repeat split.
  - intros mode distance passengers Hnot. unfold track_transportation.
    by rewrite (transportation_mode_unknown _ Hnot).
  - intros type amount unit Hnot. unfold track_energy_usage.
    by rewrite (energy_type_unknown _ Hnot).
  - intros type amount unit. apply energy_unit_refused.
  - intros time_period Hnot. unfold get_carbon_footprint_summary.
    by rewrite (start_date_unsupported now time_period Hnot).
Qed.

Lemma rejected_input_changes_nothing_witness :
  track_transportation noon "boat" 12 2 bus_then_electricity =
  Ret ([Lit "Sorry, I don't recognize '"; Lit "boat";
        Lit "' as a transportation mode."], bus_then_electricity)
  /\ track_energy_usage noon "coal" 5 "kWh" bus_then_electricity =
     Ret ([Lit "Sorry, I don't recognize '"; Lit "coal";
           Lit "' as an energy type."], bus_then_electricity)
  /\ track_energy_usage noon "propane" 5 "litres" bus_then_electricity =
     Ret ([Lit "I currently only support kWh units. Please convert ";
           Lit "litres"; Lit " to kWh."], bus_then_electricity)
  /\ get_carbon_footprint_summary noon "decade" bus_then_electricity =
     Ret (Unsupported
            [Lit "Unsupported time period: "; Lit "decade";
             Lit ". Please use 'week', 'month', or 'year'."]).
Proof.
  destruct (rejected_input_changes_nothing noon bus_then_electricity)
    as (Hmode & Htype & Hunit & Hperiod).
  split; [|split; [|split]].
  - apply Hmode. simpl. intros [H|[H|[H|[H|[H|[H|[]]]]]]]; discriminate H.
  - apply Htype. simpl. intros [H|[H|[H|[H|[H|[]]]]]]; discriminate H.
  - apply Hunit.
    + simpl. tauto.
    + discriminate.
    + intros [H _]. discriminate H.
  - apply Hperiod. simpl. intros [H|[H|[H|[]]]]; discriminate H.
Defined.

(* --------------------------------------------------------------------- *)
(** ** Preferences *)
(* --------------------------------------------------------------------- *)

Section preferences.
Implicit Types (prefs : gmap string pref_value) (k : string)
  (l : list (string * pref_value)).

Lemma update_preference_lookup prefs k0 v0 k :
  update_preference prefs (k0, v0) !! k =
  if decide (k = k0)
  then (match prefs !! k0 with Some _ => Some v0 | None => None end)
  else prefs !! k.
Proof.
  unfold update_preference. simpl. destruct (decide (k = k0)) as [->|Hne].
  - destruct (prefs !! k0) as [old|] eqn:E.
    + rewrite bool_decide_eq_true_2 by (by eexists).
      by rewrite lookup_insert_eq.
    + rewrite bool_decide_eq_false_2; [done|]. by intros [? ?].
  - case_bool_decide; [by rewrite lookup_insert_ne|done].
Qed.

(** Over items whose keys are distinct, the loop replaces the value of each
    key it finds in the stored preferences and touches nothing else. *)
Lemma loop_lookup l prefs k :
  NoDup l.*1 ->
  foldl update_preference prefs l !! k =
  match prefs !! k with
  | Some old =>
      Some (default old ((list_to_map l : gmap string pref_value) !! k))
  | None => None
  end.
Proof.
  revert prefs. induction l as [|[k0 v0] l IH]; intros prefs Hnd.
  - simpl. rewrite lookup_empty. by destruct (prefs !! k).
  - simpl in Hnd. apply NoDup_cons in Hnd as [Hk0 Hnd].
    cbn [foldl]. rewrite list_to_map_cons, IH by done.
    rewrite update_preference_lookup.
    destruct (decide (k = k0)) as [->|Hne].
    + rewrite lookup_insert_eq.
      rewrite (not_elem_of_list_to_map_1 _ _ Hk0).
      by destruct (prefs !! k0).
    + by rewrite lookup_insert_ne.
Qed.

End preferences.

(** C9: [set_user_preferences] gives every key that the stored preferences
    already have and the argument supplies the supplied value, leaves the
    other stored keys as they were, ignores the supplied keys that are not
    stored, and so keeps the set of preference keys; the record set is not
    touched. *)
Theorem set_user_preferences_merges preferences self :
  exists self',
    set_user_preferences preferences self =
    Ret ("User preferences updated successfully", self')
    /\ (forall k v,
          is_Some (user_preferences self !! k) ->
          preferences !! k = Some v ->
          user_preferences self' !! k = Some v)
    /\ (forall k,
          preferences !! k = None ->
          user_preferences self' !! k = user_preferences self !! k)
    /\ (forall k,
          user_preferences self !! k = None ->
          user_preferences self' !! k = None)
    /\ dom (user_preferences self') = dom (user_preferences self)
    /\ carbon_data self' = carbon_data self.
Proof.
  eexists. split; [reflexivity|]. cbn [user_preferences _save_data carbon_data].
  assert (Hlookup : forall k,
            foldl update_preference (user_preferences self)
              (map_to_list preferences) !! k =
            match user_preferences self !! k with
            | Some old => Some (default old (preferences !! k))
            | None => None
            end).
  { intros k. rewrite loop_lookup by apply NoDup_fst_map_to_list.
    by rewrite list_to_map_to_list. }
  repeat split.
  - intros k v [old Hold] Hv. by rewrite Hlookup, Hold, Hv.
  - intros k Hk. rewrite Hlookup, Hk. by destruct (user_preferences self !! k).
  - intros k Hk. by rewrite Hlookup, Hk.
  - apply set_eq. intros k. rewrite !elem_of_dom, Hlookup.
    destruct (user_preferences self !! k); split; intros [? ?]; by eexists.
Qed.

Lemma set_user_preferences_merges_witness :
  exists self',
    set_user_preferences vegan_and_colour with_defaults =
    Ret ("User preferences updated successfully", self')
    /\ user_preferences self' !! "diet_type" = Some (PStr "vegan")
    /\ user_preferences self' !! "home_type" = Some (PStr "apartment")
    /\ user_preferences self' !! "colour" = None.
Proof.
  destruct (set_user_preferences_merges vegan_and_colour with_defaults)
    as (self' & Hret & Hupd & Hkeep & Hignore & _ & _).
  exists self'. split; [exact Hret|]. split; [|split].
  - apply Hupd; [eexists|]; vm_compute; reflexivity.
  - rewrite Hkeep; vm_compute; reflexivity.
  - apply Hignore. vm_compute. reflexivity.
Defined.

(* --------------------------------------------------------------------- *)
(** ** Tips *)
(* --------------------------------------------------------------------- *)

Lemma contains_elem_of x l : contains x l = true <-> x ∈ l.
Proof.
  unfold contains. rewrite existsb_exists, list_elem_of_In. split.
  - intros (y & Hy & Heq). by apply String.eqb_eq in Heq as ->.
  - intros Hx. exists x. split; [done|apply String.eqb_refl].
Qed.

Lemma tips_of_key c t : t ∈ tips_of c -> c ∈ PyDict.keys eco_tips.
Proof.
  unfold tips_of. destruct (PyDict.get c eco_tips) as [l|] eqn:E.
  - intros _. by apply get_keys in E.
  - simpl. by intros ?%elem_of_nil.
Qed.

(** The four static pools share no tip. *)
Lemma pools_disjoint c1 c2 t : t ∈ tips_of c1 -> t ∈ tips_of c2 -> c1 = c2.
Proof.
  assert (Hall :
    Forall (fun c1 => Forall (fun c2 =>
      Forall (fun t => t ∈ tips_of c2 -> c1 = c2) (tips_of c1))
      (PyDict.keys eco_tips)) (PyDict.keys eco_tips)).
  { apply (bool_decide_unpack _). vm_compute. exact I. }
  intros H1 H2.
  pose proof (tips_of_key _ _ H1) as K1. pose proof (tips_of_key _ _ H2) as K2.
  pose proof (proj1 (Forall_forall _ _) Hall c1 K1) as Hc1.
  pose proof (proj1 (Forall_forall _ _) Hc1 c2 K2) as Hc2.
  exact (proj1 (Forall_forall _ _) Hc2 t H1 H2).
Qed.

Lemma tips_in_pool categories c t :
  c ∈ categories -> t ∈ tips_of c -> t ∈ Spec.pool categories.
Proof.
  intros Hc Ht. unfold Spec.pool. apply list_elem_of_In, in_flat_map.
  exists c. by rewrite <- !list_elem_of_In.
Qed.

(** A draw picks an element of a list that is not empty. *)
Lemma nth_randint_elem draws i (l : list string) :
  l <> [] -> nth (randint draws i (length l)) l "" ∈ l.
Proof.
  intros Hl. apply list_elem_of_In, nth_In. unfold randint.
  apply Nat.mod_upper_bound. by destruct l.
Qed.

Lemma insert_desc_perm x l : insert_desc x l ≡ₚ x :: l.
Proof.
  induction l as [|y l IH]; simpl; [done|].
  destruct (PrimFloat.ltb (snd x) (snd y)); [|done].
  rewrite IH. apply perm_swap.
Qed.

Lemma sorted_desc_perm l : sorted_desc l ≡ₚ l.
Proof.
  unfold sorted_desc. induction l as [|x l IH]; simpl; [done|].
  by rewrite insert_desc_perm, IH.
Qed.

(** The loop over the sorted categories keeps the selected tips distinct and
    within the pools of the allowed categories: a category is visited once,
    and the pools are disjoint. *)
Lemma prioritize_distinct draws categories count srt :
  forall i selected,
    NoDup srt.*1 ->
    NoDup selected ->
    (forall t, t ∈ selected ->
       exists c, c ∈ categories /\ (c ∉ srt.*1) /\ t ∈ tips_of c) ->
    NoDup (prioritize draws i srt categories count selected).1
    /\ forall t, t ∈ (prioritize draws i srt categories count selected).1 ->
         exists c, c ∈ categories /\ t ∈ tips_of c.
Proof.
  induction srt as [|[hc v] srt IH]; intros i selected Hsrt Hsel Hfrom.
  - simpl. split; [done|]. intros t Ht.
    destruct (Hfrom t Ht) as (c & Hc & _ & Htc). by exists c.
  - simpl in Hsrt. apply NoDup_cons in Hsrt as [Hhc Hsrt].
    assert (Hrest : forall t, t ∈ selected ->
              exists c, c ∈ categories /\ (c ∉ srt.*1) /\ t ∈ tips_of c).
    { intros t Ht. destruct (Hfrom t Ht) as (c & Hc & Hnot & Htc).
      exists c. repeat split; try done.
      intros Hin. apply Hnot. simpl. by apply elem_of_cons; right. }
    cbn [prioritize].
    destruct (PyDict.mem hc eco_tips && contains hc categories) eqn:Hok;
      [|by apply IH].
    apply andb_true_iff in Hok as [_ Hcat]. apply contains_elem_of in Hcat.
    destruct (tips_of hc) as [|t0 tl] eqn:Htips; [by apply IH|].
    rewrite <- Htips.
    set (tip := nth (randint draws i (length (tips_of hc))) (tips_of hc) "").
    assert (Htip : tip ∈ tips_of hc).
    { apply nth_randint_elem. by rewrite Htips. }
    assert (Hnew : NoDup (selected ++ [tip])).
    { apply NoDup_app. split; [done|]. split; [|apply NoDup_singleton].
      intros t Ht ->%list_elem_of_singleton.
      destruct (Hfrom tip Ht) as (c & _ & Hnot & Htc).
      apply Hnot. simpl. apply elem_of_cons. left.
      by apply (pools_disjoint c hc tip). }
    assert (Hnewfrom : forall t, t ∈ selected ++ [tip] ->
              exists c, c ∈ categories /\ (c ∉ srt.*1) /\ t ∈ tips_of c).
    { intros t [Ht| ->%list_elem_of_singleton]%elem_of_app.
      - by apply Hrest.
      - by exists hc. }
    destruct (Z.of_nat (length (selected ++ [tip])) >=? count).
    + simpl. split; [done|]. intros t Ht.
      destruct (Hnewfrom t Ht) as (c & Hc & _ & Htc). by exists c.
    + by apply IH.
Qed.

(** The loop over the sorted categories stops as soon as [count] tips are
    selected. *)
Lemma prioritize_length draws categories count srt :
  forall i selected,
    Z.of_nat (length selected) < count ->
    Z.of_nat (length (prioritize draws i srt categories count selected).1)
    <= count.
Proof.
  induction srt as [|[hc v] srt IH]; intros i selected Hlen; cbn [prioritize].
  - simpl. lia.
  - destruct (_ && _); [|by apply IH].
    destruct (tips_of hc) as [|t0 tl]; [by apply IH|].
    set (tip := nth _ (t0 :: tl) "").
    assert (Happ : Z.of_nat (length (selected ++ [tip]))
                   = Z.of_nat (length selected) + 1)
      by (rewrite length_app; simpl; lia).
    destruct (Z.geb_spec (Z.of_nat (length (selected ++ [tip]))) count).
    + simpl. lia.
    + by apply IH.
Qed.

(** The fill loop stops as soon as [count] tips are selected. *)
Lemma fill_length fuel draws categories count :
  forall i selected tips,
    Z.of_nat (length selected) <= count ->
    fill fuel draws i categories count selected = Ret tips ->
    Z.of_nat (length tips) <= count.
Proof.
  induction fuel as [|fuel IH]; intros i selected tips Hlen; cbn [fill];
    destruct (Z.ltb_spec (Z.of_nat (length selected)) count);
    try discriminate; try (by intros [= <-]).
  destruct (tips_of _) as [|t0 tl]; [by apply IH|].
  set (tip := nth _ (t0 :: tl) "").
  destruct (negb (contains tip selected)); [|by apply IH].
  apply IH. rewrite length_app. simpl. lia.
Qed.

(** The fill loop appends a tip only when it is not among the selected ones. *)
Lemma fill_distinct fuel draws categories count :
  forall i selected tips,
    NoDup selected ->
    fill fuel draws i categories count selected = Ret tips ->
    NoDup tips.
Proof.
  induction fuel as [|fuel IH]; intros i selected tips Hnd; cbn [fill];
    destruct (Z.of_nat (length selected) <? count); try discriminate;
    try (by intros [= <-]).
  destruct (tips_of _) as [|t0 tl]; [by apply IH|].
  set (tip := nth _ (t0 :: tl) "").
  destruct (contains tip selected) eqn:Hin; cbn [negb]; [by apply IH|].
  apply IH. apply NoDup_app. split; [done|]. split; [|apply NoDup_singleton].
  intros t Ht ->%list_elem_of_singleton.
  apply contains_elem_of in Ht. congruence.
Qed.

(** A category drawn by the fill loop that has tips is an allowed one. *)
Lemma drawn_category_allowed draws i categories :
  tips_of (nth (randint draws i (length categories)) categories "") <> [] ->
  nth (randint draws i (length categories)) categories "" ∈ categories.
Proof.
  destruct categories as [|c cs].
  - intros H. exfalso. apply H.
    by destruct (randint draws i (length (@nil string))).
  - intros _. by apply nth_randint_elem.
Qed.

(** When fewer distinct tips are eligible than [count] asks for, the fill
    loop exhausts any fuel: the selected tips stay distinct and eligible, so
    their number stays below [count]. *)
Lemma fill_exhausted fuel draws categories count :
  Z.of_nat (length (Spec.pool categories)) < count ->
  forall i selected,
    NoDup selected ->
    (forall t, t ∈ selected -> t ∈ Spec.pool categories) ->
    fill fuel draws i categories count selected = OutOfFuel.
Proof.
  intros Hcount.
  induction fuel as [|fuel IH]; intros i selected Hnd Hsub; cbn [fill].
  all: assert (Hlen : (length selected <= length (Spec.pool categories))%nat)
         by (by apply submseteq_length, NoDup_submseteq).
  all: destruct (Z.ltb_spec (Z.of_nat (length selected)) count); [|lia].
  - done.
  - destruct (tips_of _) as [|t0 tl] eqn:Htips; [by apply IH|].
    rewrite <- Htips.
    set (rc := nth (randint draws i (length categories)) categories "") in *.
    set (tip := nth _ (tips_of rc) "").
    destruct (contains tip selected) eqn:Hin; cbn [negb]; [by apply IH|].
    apply IH.
    + apply NoDup_app. split; [done|]. split; [|apply NoDup_singleton].
      intros t Ht ->%list_elem_of_singleton.
      apply contains_elem_of in Ht. congruence.
    + intros t [Ht| ->%list_elem_of_singleton]%elem_of_app; [by apply Hsub|].
      apply (tips_in_pool categories rc).
      * apply drawn_category_allowed. fold rc. by rewrite Htips.
      * apply nth_randint_elem. by rewrite Htips.
Qed.

(** The summary of the month, as the tips read it: raised by the date
    arithmetic, or the five-key mapping. *)
Lemma month_summary_shape now self :
  (exists e, get_carbon_footprint_summary now "month" self = Raise e)
  \/ (exists T E F P X,
        get_carbon_footprint_summary now "month" self =
        Ret (Summary
               [ ("transportation", T); ("energy", E); ("food", F);
                 ("purchases", P); ("total", X) ])).
Proof.
  destruct (sub_days now 30) as [start|e|] eqn:Hs.
  - right.
    rewrite (summary_closed_form now "month" (isoformat start) self)
      by exact (start_date_period now "month" 30 start eq_refl Hs).
    by eexists _, _, _, _, _.
  - left. unfold get_carbon_footprint_summary, start_date.
    cbn [String.eqb Ascii.eqb Bool.eqb]. rewrite Hs. by eexists.
  - unfold sub_days in Hs.
    destruct (_ && _); [|discriminate].
    by destruct (_ord2ymd _) as [[? ?] ?].
Qed.

(** Past the check of the category, [get_personalized_tips] raises with the
    summary or enters the fill loop with distinct tips of allowed
    categories. *)
Lemma tips_reach_fill fuel draws now category count self :
  truthy category && negb (PyDict.mem (default "" category) eco_tips) = false ->
  let categories :=
    if truthy category then [default "" category] else PyDict.keys eco_tips in
  (exists e,
     get_personalized_tips fuel draws now category count self = Raise e)
  \/ (exists selected i,
        NoDup selected
        /\ (forall t, t ∈ selected -> t ∈ Spec.pool categories)
        /\ (1 <= count -> Z.of_nat (length selected) <= count)
        /\ get_personalized_tips fuel draws now category count self =
           fill fuel draws i categories count selected).
Proof.
  intros Hvalid categories. unfold get_personalized_tips. rewrite Hvalid.
  fold categories.
  destruct (month_summary_shape now self)
    as [[e ->]|(T & E & F & P & X & ->)]; [left; by eexists|right].
  cbn [mbind result_bind List.filter fst negb String.eqb Ascii.eqb Bool.eqb].
  set (srt := sorted_desc _).
  assert (Hsrt : NoDup srt.*1).
  { unfold srt. rewrite sorted_desc_perm.
    apply (bool_decide_unpack _). vm_compute. exact I. }
  destruct (prioritize_distinct draws categories count srt 0 [] Hsrt)
    as [Hnd Hfrom].
  { constructor. }
  { by intros t ?%elem_of_nil. }
  pose proof (prioritize_length draws categories count srt 0 []) as Hlen.
  destruct (prioritize draws 0 srt categories count []) as [selected i].
  exists selected, i. split; [exact Hnd|]. split; [|split; [|done]].
  - intros t Ht. destruct (Hfrom t Ht) as (c & Hc & Htc).
    by apply (tips_in_pool categories c).
  - intros Hcount. apply Hlen. simpl. lia.
Qed.

(** C10: the tips that [get_personalized_tips] returns are pairwise
    distinct. *)
Theorem tips_pairwise_distinct fuel draws now category count self tips :
  get_personalized_tips fuel draws now category count self = Ret tips ->
  NoDup tips.
Proof.
  destruct (truthy category
            && negb (PyDict.mem (default "" category) eco_tips)) eqn:Hvalid.
  - unfold get_personalized_tips. rewrite Hvalid. intros [= <-].
    apply NoDup_singleton.
  - destruct (tips_reach_fill fuel draws now category count self Hvalid)
      as [[e ->]|(selected & i & Hnd & _ & _ & ->)]; [discriminate|].
    by apply fill_distinct.
Qed.

Lemma tips_pairwise_distinct_witness :
  NoDup
    [ "Switch to LED light bulbs to reduce energy consumption";
      "Try using public transportation once a week";
      "Plan meals to reduce food waste";
      "Repair items when possible instead of replacing";
      "Consider carpooling to reduce emissions" ].
Proof.
  apply (tips_pairwise_distinct 10 (fun n => n) noon None 5
           bus_then_electricity).
  vm_compute. reflexivity.
Defined.

(** Asking for more tips than are eligible never returns. *)
Lemma tips_pool_exhausted fuel draws now category count self tips :
  truthy category && negb (PyDict.mem (default "" category) eco_tips) = false ->
  Z.of_nat
    (length
       (Spec.pool
          (if truthy category then [default "" category]
           else PyDict.keys eco_tips))) < count ->
  get_personalized_tips fuel draws now category count self <> Ret tips.
Proof.
  intros Hvalid Hcount.
  destruct (tips_reach_fill fuel draws now category count self Hvalid)
    as [[e ->]|(selected & i & Hnd & Hsub & _ & ->)]; [discriminate|].
  by rewrite fill_exhausted.
Qed.

(** C2 fails on the code: with the filter "food" (five tips) and [count = 6]
    the call never returns, whatever the fuel and the draws, and neither
    does it with no filter (twenty tips) and [count = 21]; and with
    [count = 0] the call returns one tip, not none. *)
Theorem tips_loop_unbounded :
  (forall fuel draws now self tips,
     get_personalized_tips fuel draws now (Some "food") 6 self <> Ret tips)
  /\ (forall fuel draws now self tips,
        get_personalized_tips fuel draws now None 21 self <> Ret tips)
  /\ (forall fuel draws self,
        exists tip,
          get_personalized_tips fuel draws noon None 0 self = Ret [tip]).
Proof.
  split; [|split].
  - intros. by apply tips_pool_exhausted.
  - intros. by apply tips_pool_exhausted.
  - intros fuel draws self. unfold get_personalized_tips.
    cbn [truthy andb default].
    rewrite (summary_closed_form noon "month" "2024-01-31T12:00:00" self)
      by reflexivity.
    cbn [mbind result_bind List.filter fst negb String.eqb Ascii.eqb Bool.eqb].
    set (l := [("transportation", _); _; _; _]).
    pose proof (sorted_desc_perm l) as Hperm.
    destruct (sorted_desc l) as [|[hc v] rest].
    { by apply Permutation_nil_cons in Hperm. }
    assert (Hhc : (hc, v) ∈ l)
      by (rewrite <- Hperm; apply elem_of_cons; by left).
    assert (Hkey : hc ∈ ["transportation"; "energy"; "food"; "purchases"]).
    { change (hc ∈ l.*1). apply list_elem_of_fmap. by exists (hc, v). }
    assert (Hone : exists tip,
              prioritize draws 0 ((hc, v) :: rest) (PyDict.keys eco_tips) 0 []
              = ([tip], 1%nat)).
    { repeat (apply elem_of_cons in Hkey as [->|Hkey]);
        [by eexists ..|by apply elem_of_nil in Hkey]. }
    destruct Hone as [tip ->]. exists tip. by destruct fuel.
Qed.

(** For [1 <= count], a returned list has at most [count] tips. *)
Lemma tips_at_most_count fuel draws now category count self tips :
  1 <= count ->
  get_personalized_tips fuel draws now category count self = Ret tips ->
  Z.of_nat (length tips) <= count.
Proof.
  intros Hcount.
  destruct (truthy category
            && negb (PyDict.mem (default "" category) eco_tips)) eqn:Hvalid.
  - unfold get_personalized_tips. rewrite Hvalid. by intros [= <-].
  - destruct (tips_reach_fill fuel draws now category count self Hvalid)
      as [[e ->]|(selected & i & _ & _ & Hlen & ->)]; [discriminate|].
    apply fill_length. by apply Hlen.
Qed.

(* --------------------------------------------------------------------- *)
(** ** Timestamps *)
(* --------------------------------------------------------------------- *)

(** The summary compares ISO strings; on the timestamps the program writes
    (the [isoformat] of a clock reading) this is the order of the instants. *)

Lemma compare_append a b s t :
  String.length a = String.length b ->
  String.compare (a +:+ s) (b +:+ t) =
  match String.compare a b with
  | Eq => String.compare s t
  | c => c
  end.
Proof.
  revert b. induction a as [|c a IH]; intros [|d b] Hlen; try discriminate.
  - done.
  - simpl in *. destruct (Ascii.compare c d); try done.
    apply IH. lia.
Qed.

Lemma append_length a b :
  String.length (a +:+ b) = (String.length a + String.length b)%nat.
Proof. induction a as [|c a IH]; simpl; [done|by rewrite IH]. Qed.

Lemma zero_padded_length w n : String.length (PyStr.zero_padded w n) = w.
Proof.
  revert n. induction w as [|w IH]; intros n; simpl; [done|].
  rewrite append_length, IH. simpl. lia.
Qed.

Lemma digit_compare a b :
  0 <= a < 10 -> 0 <= b < 10 ->
  Ascii.compare (ascii_of_nat (48 + Z.to_nat a))
    (ascii_of_nat (48 + Z.to_nat b)) = (a ?= b).
Proof.
  intros Ha Hb.
  assert (Ea : a = 0 \/ a = 1 \/ a = 2 \/ a = 3 \/ a = 4 \/ a = 5 \/ a = 6
               \/ a = 7 \/ a = 8 \/ a = 9) by lia.
  assert (Eb : b = 0 \/ b = 1 \/ b = 2 \/ b = 3 \/ b = 4 \/ b = 5 \/ b = 6
               \/ b = 7 \/ b = 8 \/ b = 9) by lia.
  clear Ha Hb.
  repeat (destruct Ea as [->|Ea]); try subst a;
    repeat (destruct Eb as [->|Eb]); try subst b; reflexivity.
Qed.

(** Zero-padded numbers of one width compare as the numbers do. *)
Lemma zero_padded_compare w :
  forall n m,
    0 <= n < 10 ^ Z.of_nat w -> 0 <= m < 10 ^ Z.of_nat w ->
    String.compare (PyStr.zero_padded w n) (PyStr.zero_padded w m) = (n ?= m).
Proof.
  induction w as [|w IH]; intros n m Hn Hm.
  - simpl in *. assert (n = 0) as -> by lia. by assert (m = 0) as -> by lia.
  - rewrite Nat2Z.inj_succ, Z.pow_succ_r in Hn, Hm by lia.
    cbn [PyStr.zero_padded].
    rewrite compare_append by (by rewrite !zero_padded_length).
    rewrite IH by (split; [apply Z.div_pos|apply Z.div_lt_upper_bound]; lia).
    cbn [String.compare].
    rewrite digit_compare by (apply Z.mod_pos_bound; lia).
    pose proof (Z.div_mod n 10 ltac:(lia)) as En.
    pose proof (Z.div_mod m 10 ltac:(lia)) as Em.
    pose proof (Z.mod_pos_bound n 10 ltac:(lia)) as Bn.
    pose proof (Z.mod_pos_bound m 10 ltac:(lia)) as Bm.
    destruct (Z.compare_spec (n / 10) (m / 10)) as [Hq|Hq|Hq].
    + rewrite Hq in En.
      destruct (Z.compare_spec (n mod 10) (m mod 10)) as [Hr|Hr|Hr];
        symmetry; [apply Z.compare_eq_iff|apply Z.compare_lt_iff
                  |apply Z.compare_gt_iff]; lia.
    + symmetry. apply Z.compare_lt_iff. lia.
    + symmetry. apply Z.compare_gt_iff. lia.
Qed.

Lemma compare_separator c s t :
  String.compare (String c "" +:+ s) (String c "" +:+ t) = String.compare s t.
Proof.
  change (match Ascii.compare c c with
          | Eq => String.compare s t
          | Lt => Lt
          | Gt => Gt
          end = String.compare s t).
  replace (Ascii.compare c c) with Eq; [done|].
  symmetry. apply N.compare_refl.
Qed.

(** The optional [.ffffff] of [isoformat] orders as the microseconds do. *)
Lemma microsecond_suffix_compare a b :
  0 <= a < 1000000 -> 0 <= b < 1000000 ->
  String.compare
    (if a =? 0 then "" else "." +:+ PyStr.zero_padded 6 a)
    (if b =? 0 then "" else "." +:+ PyStr.zero_padded 6 b) = (a ?= b).
Proof.
  intros Ha Hb.
  destruct (Z.eqb_spec a 0) as [->|Ha0]; destruct (Z.eqb_spec b 0) as [->|Hb0].
  - done.
  - symmetry. apply Z.compare_lt_iff. lia.
  - symmetry. apply Z.compare_gt_iff. lia.
  - rewrite compare_separator. by apply (zero_padded_compare 6).
Qed.

(** ISO strings of valid datetimes compare as the datetimes do. *)
Lemma isoformat_compare a b :
  valid a -> valid b ->
  String.compare (isoformat a) (isoformat b) = PyDatetime.cmp a b.
Proof.
  intros (Hy & Hm & Hd & HH & HM & HS & Hu).
  intros (Hy' & Hm' & Hd' & HH' & HM' & HS' & Hu').
  unfold isoformat, PyDatetime.cmp, fields. cbn [cmp_fields].
  rewrite compare_append, (zero_padded_compare 4)
    by (rewrite ?zero_padded_length; simpl; lia).
  destruct (year a ?= year b); try done. rewrite compare_separator.
  rewrite compare_append, (zero_padded_compare 2)
    by (rewrite ?zero_padded_length; simpl; lia).
  destruct (month a ?= month b); try done. rewrite compare_separator.
  rewrite compare_append, (zero_padded_compare 2)
    by (rewrite ?zero_padded_length; simpl; lia).
  destruct (day a ?= day b); try done. rewrite compare_separator.
  rewrite compare_append, (zero_padded_compare 2)
    by (rewrite ?zero_padded_length; simpl; lia).
  destruct (hour a ?= hour b); try done. rewrite compare_separator.
  rewrite compare_append, (zero_padded_compare 2)
    by (rewrite ?zero_padded_length; simpl; lia).
  destruct (minute a ?= minute b); try done. rewrite compare_separator.
  rewrite compare_append, (zero_padded_compare 2)
    by (rewrite ?zero_padded_length; simpl; lia).
  destruct (second a ?= second b); try done.
  rewrite microsecond_suffix_compare by done.
  by destruct (microsecond a ?= microsecond b).
Qed.

(** An entry stamped at the clock reading [t] is in the window that starts
    at [start] exactly when [t >= start] as datetimes. *)
Lemma isoformat_ge t start :
  valid t -> valid start ->
  PyStr.ge (isoformat t) (isoformat start) = PyDatetime.ge t start.
Proof.
  intros Ht Hs. unfold PyStr.ge, String.leb, PyDatetime.ge.
  by rewrite isoformat_compare.
Qed.

(* --------------------------------------------------------------------- *)
(** ** Product recommendations *)
(* --------------------------------------------------------------------- *)

Section shuffling.
Context {A : Type}.
Implicit Types (x : list A) (i j k : nat).

(** Putting at [j] the element that heads the list, which takes the one of
    [j], rearranges the list. *)
Lemma exchange_head_perm a x j xj :
  x !! j = Some xj -> xj :: <[j := a]> x ≡ₚ a :: x.
Proof.
  revert j. induction x as [|b x IH]; intros [|j] Hj; simplify_eq/=.
  - apply perm_swap.
  - rewrite perm_swap. rewrite (IH j Hj). apply perm_swap.
Qed.

Lemma swap_perm i j x : swap i j x ≡ₚ x.
Proof.
  unfold swap.
  destruct (x !! i) as [xi|] eqn:Hi; [|done].
  destruct (x !! j) as [xj|] eqn:Hj; [|done].
  revert i j Hi Hj. induction x as [|a x IH]; intros [|i] [|j] Hi Hj;
    simplify_eq/=.
  - done.
  - by apply exchange_head_perm.
  - by apply exchange_head_perm.
  - by rewrite (IH i j).
Qed.

Lemma shuffle_down_perm draws i : forall k x, shuffle_down draws k i x ≡ₚ x.
Proof.
  induction i as [|i IH]; intros k x; simpl; [done|].
  by rewrite IH, swap_perm.
Qed.

(** A shuffle rearranges the list: nothing is lost, added or repeated. *)
Lemma shuffle_perm draws k x : shuffle draws k x ≡ₚ x.
Proof. apply shuffle_down_perm. Qed.

Lemma slice_to_submseteq n x : slice_to n x ⊆+ x.
Proof. unfold slice_to. destruct (0 <=? n); apply submseteq_take. Qed.

Lemma slice_to_length n x :
  0 <= n -> Z.of_nat (length (slice_to n x)) = Z.min n (Z.of_nat (length x)).
Proof.
  intros Hn. unfold slice_to. destruct (Z.leb_spec 0 n); [|lia].
  rewrite length_take. lia.
Qed.

End shuffling.

(** The loop hands out, besides what it had, products of the categories it
    visits, each at most once. *)
Lemma recommend_loop_submseteq draws count categories :
  forall k recommendations,
    recommend_loop draws k categories count recommendations
    ⊆+ recommendations ++ product_pool categories.
Proof.
  induction categories as [|cat rest IH]; intros k recs; cbn [recommend_loop].
  - unfold product_pool. simpl. by rewrite app_nil_r.
  - change (product_pool (cat :: rest))
      with (products_of cat ++ product_pool rest).
    destruct (products_of cat) as [|p ps] eqn:Hp; [apply IH|].
    rewrite <- Hp. clear Hp.
    assert (Hpart :
      recs ++ slice_to (Z.min count
                          (Z.of_nat (length (shuffle draws k (products_of cat)))))
                (shuffle draws k (products_of cat))
      ⊆+ recs ++ products_of cat).
    { apply submseteq_skips_l. etrans; [apply slice_to_submseteq|].
      apply Permutation_submseteq, shuffle_perm. }
    destruct (_ >=? count).
    + etrans; [apply slice_to_submseteq|].
      rewrite app_assoc. by apply submseteq_inserts_r.
    + etrans; [apply IH|]. rewrite app_assoc. by apply submseteq_skips_r.
Qed.

(** For [0 <= count], and starting below [count], the loop hands out [count]
    products, or all of them when there are fewer. *)
Lemma recommend_loop_length draws count categories :
  0 <= count ->
  forall k recommendations,
    Z.of_nat (length recommendations) <= count ->
    Z.of_nat
      (length (recommend_loop draws k categories count recommendations)) =
    Z.min count
      (Z.of_nat (length recommendations + length (product_pool categories))).
Proof.
  intros Hcount.
  induction categories as [|cat rest IH]; intros k recs Hrecs;
    cbn [recommend_loop].
  - unfold product_pool. simpl. lia.
  - change (product_pool (cat :: rest))
      with (products_of cat ++ product_pool rest).
    rewrite (length_app (products_of cat)).
    destruct (products_of cat) as [|p ps] eqn:Hp;
      [rewrite IH by done; simpl; lia|].
    rewrite <- Hp.
    assert (Hps : (0 < length (products_of cat))%nat) by (rewrite Hp; simpl; lia).
    clear Hp.
    set (available := shuffle draws k (products_of cat)).
    assert (Hlen : length available = length (products_of cat))
      by apply Permutation_length, shuffle_perm.
    set (recs' := recs ++ slice_to (Z.min count (Z.of_nat (length available)))
                            available).
    assert (Hrecs' : Z.of_nat (length recs') =
                     Z.of_nat (length recs)
                     + Z.min count (Z.of_nat (length (products_of cat)))).
    { unfold recs'. rewrite length_app, Nat2Z.inj_add, slice_to_length by lia.
      lia. }
    destruct (Z.geb_spec (Z.of_nat (length recs')) count).
    + rewrite slice_to_length by done. lia.
    + rewrite IH by lia. lia.
Qed.

(** The table of products names every product once. *)
Lemma products_distinct : NoDup (product_pool (PyDict.keys sustainable_products)).
Proof. apply (bool_decide_unpack _). vm_compute. exact I. Qed.

Lemma product_category_pool c :
  PyDict.mem c sustainable_products = true ->
  product_pool [c] ⊆+ product_pool (PyDict.keys sustainable_products).
Proof.
  unfold PyDict.mem. destruct (PyDict.get c sustainable_products) eqn:E; [|done].
  intros _. apply get_keys in E.
  repeat (apply elem_of_cons in E as [->|E]);
    [apply (bool_decide_unpack _); vm_compute; exact I ..
    |by apply elem_of_nil in E].
Qed.

(** X1: [recommend_sustainable_products] with [0 <= count] always returns,
    with exactly [count] products, or with all the products allowed when
    there are fewer: nine with no filter, three with a category of the
    table. *)
Theorem recommend_count draws count :
  0 <= count ->
  (exists l,
     recommend_sustainable_products draws None count = Products l
     /\ Z.of_nat (length l) = Z.min count 9)
  /\ (forall c,
        In c ["home"; "kitchen"; "personal"] ->
        exists l,
          recommend_sustainable_products draws (Some c) count = Products l
          /\ Z.of_nat (length l) = Z.min count 3).
Proof.
  intros Hcount. split.
  - eexists. split; [reflexivity|].
    by rewrite recommend_loop_length.
  - intros c Hc. simpl in Hc.
    destruct Hc as [<-|[<-|[<-|[]]]]; (eexists; split; [reflexivity|]);
      by rewrite recommend_loop_length.
Qed.

Lemma recommend_count_witness :
  (exists l,
     recommend_sustainable_products (fun n => n) None 20 = Products l
     /\ Z.of_nat (length l) = 9)
  /\ (exists l,
        recommend_sustainable_products (fun n => n) (Some "kitchen") 2
        = Products l
        /\ Z.of_nat (length l) = 2).
Proof.
  split.
  - exact (proj1 (recommend_count (fun n => n) 20 ltac:(lia))).
  - apply (proj2 (recommend_count (fun n => n) 2 ltac:(lia)) "kitchen").
    simpl. tauto.
Defined.

(** X2: the products recommended are pairwise distinct and belong to the
    categories allowed: to the category of the filter when one is given,
    whatever [count] (negative counts included) and whatever the draws. *)
Theorem recommend_distinct_allowed draws category count l :
  recommend_sustainable_products draws category count = Products l ->
  NoDup l
  /\ (forall p, p ∈ l ->
        p ∈ product_pool (PyDict.keys sustainable_products))
  /\ (truthy category = true ->
      forall p, p ∈ l -> p ∈ products_of (default "" category)).
Proof.
  unfold recommend_sustainable_products.
  destruct (truthy category
            && negb (PyDict.mem (default "" category) sustainable_products))
    eqn:Hvalid; [discriminate|].
  intros [= <-].
  pose proof (recommend_loop_submseteq draws count
                (if truthy category then [default "" category]
                 else PyDict.keys sustainable_products) 0 []) as Hsub.
  simpl app in Hsub.
  assert (Hall :
    (if truthy category then product_pool [default "" category]
     else product_pool (PyDict.keys sustainable_products))
    ⊆+ product_pool (PyDict.keys sustainable_products)).
  { destruct (truthy category); [|done].
    apply product_category_pool.
    by destruct (PyDict.mem (default "" category) sustainable_products). }
  assert (Hpool :
    recommend_loop draws 0
      (if truthy category then [default "" category]
       else PyDict.keys sustainable_products) count []
    ⊆+ product_pool (PyDict.keys sustainable_products)).
  { etrans; [exact Hsub|]. by destruct (truthy category). }
  split; [|split].
  - apply submseteq_Permutation in Hpool as [rest Hrest].
    pose proof products_distinct as Hnd. rewrite Hrest in Hnd.
    by apply NoDup_app in Hnd as [? _].
  - intros p Hp. by apply (elem_of_submseteq _ _ _ Hp).
  - intros Ht p Hp. rewrite Ht in Hsub, Hp.
    pose proof (elem_of_submseteq _ _ _ Hp Hsub) as Hin.
    unfold product_pool in Hin. simpl in Hin. by rewrite app_nil_r in Hin.
Qed.

Lemma recommend_distinct_allowed_witness :
  NoDup [ mkProduct "Compost bin"
            "Convenient way to collect food scraps for composting";
          mkProduct "Beeswax food wraps"
            "Reusable alternative to plastic wrap" ].
Proof.
  apply (recommend_distinct_allowed (fun n => 7 * n + 1)%nat (Some "kitchen") 2).
  vm_compute. reflexivity.
Defined.

(* --------------------------------------------------------------------- *)
(** ** Sequences of calls *)
(* --------------------------------------------------------------------- *)

(** The loop of [set_user_preferences] adds and removes no key. *)
Lemma preferences_loop_dom l (prefs : gmap string pref_value) :
  dom (foldl update_preference prefs l) = dom prefs.
Proof.
  revert prefs. induction l as [|[k v] l IH]; intros prefs; simpl; [done|].
  rewrite IH. unfold update_preference. simpl.
  case_bool_decide as Hk; [|done].
  apply set_eq. intros k'. rewrite dom_insert, elem_of_union, elem_of_singleton.
  split; [intros [->|?]; [by apply elem_of_dom|done] | by right].
Qed.

(** What a call can do to the agent: nothing; append one entry to one log
    and save the record set; or replace the preferences, keys kept, and save
    them. *)
Lemma perform_cases now c self self' :
  perform now c self = Ret self' ->
  self' = self
  \/ (is_tracking c = true
      /\ exists d,
           self' = record_carbon d self
           /\ ((exists e, d = append_transportation e (carbon_data self))
               \/ (exists e, d = append_energy e (carbon_data self))
               \/ (exists e, d = append_food e (carbon_data self))
               \/ (exists e, d = append_purchase e (carbon_data self))))
  \/ (is_tracking c = false
      /\ exists prefs,
           self' =
           _save_data "preferences.json" (SavedPreferences prefs)
             (mkAgent (carbon_data self) prefs (saves self))
           /\ dom prefs = dom (user_preferences self)).
Proof.
  destruct c as [mode distance passengers|type amount unit|items
                |category description price eco|preferences];
    cbn [perform].
  - unfold track_transportation.
    destruct (PyDict.get mode transportation_factors) as [factor|];
      [|intros [= <-]; by left].
    destruct (String.eqb mode "car");
      [destruct (float_of_int (Z.max 1 passengers)) as [p|e|]|];
      try discriminate; intros [= <-]; right; left; (split; [done|]);
      eexists; (split; [reflexivity|]); left; by eexists.
  - unfold track_energy_usage.
    destruct (PyDict.get type energy_factors) as [factor|];
      [|intros [= <-]; by left].
    destruct (_ && _); destruct (negb _); intros [= <-];
      try (by left); right; left; (split; [done|]);
      eexists; (split; [reflexivity|]); right; left; by eexists.
  - unfold track_food. destruct (fold_left _ _ _) as [total tracked].
    intros [= <-]. right; left. split; [done|].
    eexists. split; [reflexivity|]. right; right; left. by eexists.
  - unfold track_purchase. intros [= <-]. right; left. split; [done|].
    eexists. split; [reflexivity|]. right; right; right. by eexists.
  - unfold set_user_preferences. intros [= <-]. right; right.
    split; [done|].
    eexists. split; [reflexivity|]. apply preferences_loop_dom.
Qed.

(** X3: over any sequence of calls nothing recorded is removed or changed:
    each of the four logs, and the trace of saves, keeps what it had as a
    prefix; and the set of preference keys stays the same. *)
Theorem run_append_only calls self self' :
  run calls self = Ret self' ->
  transportation (carbon_data self) `prefix_of` transportation (carbon_data self')
  /\ energy (carbon_data self) `prefix_of` energy (carbon_data self')
  /\ food (carbon_data self) `prefix_of` food (carbon_data self')
  /\ purchases (carbon_data self) `prefix_of` purchases (carbon_data self')
  /\ saves self `prefix_of` saves self'
  /\ dom (user_preferences self') = dom (user_preferences self).
Proof.
  revert self. induction calls as [|[now c] calls IH]; intros self; cbn [run].
  - by intros [= <-].
  - destruct (perform now c self) as [self1|e|] eqn:Hc; try discriminate.
    cbn [mbind result_bind]. intros Hrun.
    destruct (IH self1 Hrun) as (Ht & He & Hf & Hp & Hs & Hd).
    apply perform_cases in Hc
      as [->|[(_ & d & -> & Hd1)|(_ & prefs & -> & Hdom)]].
    + done.
    + cbn [record_carbon _save_data set_carbon carbon_data saves
           user_preferences] in *.
      repeat split; try done;
        try (by eapply prefix_app_l);
        destruct Hd1 as [[e ->]|[[e ->]|[[e ->]|[e ->]]]];
        cbn [append_transportation append_energy append_food append_purchase
             transportation energy food purchases] in *;
        try done; by eapply prefix_app_l.
    + cbn [_save_data carbon_data saves user_preferences] in *.
      repeat split; try done; [by eapply prefix_app_l|congruence].
Qed.

Lemma run_append_only_witness :
  transportation (carbon_data bus_then_electricity)
  `prefix_of`
  transportation
    (carbon_data
       (after (track_purchase noon "hobby" "Kite" 10 false
                 (after (track_transportation noon "walk" 2 1
                           bus_then_electricity))))).
Proof.
  apply (run_append_only
           [ (noon, TrackTransportation "walk" 2 1);
             (noon, TrackPurchase "hobby" "Kite" 10 false) ]
           bus_then_electricity).
  vm_compute. reflexivity.
Defined.

Lemma last_saved_snoc filename trace w :
  last_saved filename (trace ++ [w]) =
  if String.eqb (fst w) filename then Some (snd w)
  else last_saved filename trace.
Proof.
  unfold last_saved. rewrite List.filter_app. cbn [List.filter].
  destruct (String.eqb (fst w) filename).
  - by rewrite last_snoc.
  - by rewrite app_nil_r.
Qed.

Lemma run_written_through d0 p0 calls :
  forall self self',
    written_through d0 p0 self ->
    run calls self = Ret self' ->
    written_through d0 p0 self'.
Proof.
  induction calls as [|[now c] calls IH]; intros self self' Hinv; cbn [run].
  - by intros [= <-].
  - destruct (perform now c self) as [self1|e|] eqn:Hc; try discriminate.
    cbn [mbind result_bind]. apply IH. clear IH.
    apply perform_cases in Hc
      as [->|[(_ & d & -> & _)|(_ & prefs & -> & _)]]; [done|..];
      destruct Hinv as [Hcarbon Hprefs]; unfold written_through;
      cbn [record_carbon _save_data set_carbon carbon_data saves
           user_preferences];
      by rewrite !last_saved_snoc.
Qed.

(** X4: write-through. In an agent that starts with an empty trace, after
    any sequence of calls the last document saved to each file is the whole
    current data of the agent; and while a file has not been saved, the data
    it holds for the agent are those the agent started with. *)
Theorem run_write_through calls self self' :
  saves self = [] ->
  run calls self = Ret self' ->
  match last_saved "carbon_footprint.json" (saves self') with
  | Some s => s = SavedCarbon (carbon_data self')
  | None => carbon_data self' = carbon_data self
  end
  /\ match last_saved "preferences.json" (saves self') with
     | Some s => s = SavedPreferences (user_preferences self')
     | None => user_preferences self' = user_preferences self
     end.
Proof.
  intros Hempty Hrun.
  apply (run_written_through (carbon_data self) (user_preferences self)
           calls self self'); [|done].
  unfold written_through. by rewrite Hempty.
Qed.

Lemma run_write_through_witness :
  match last_saved "carbon_footprint.json" (saves after_boat_then_kite) with
  | Some s => s = SavedCarbon (carbon_data after_boat_then_kite)
  | None => carbon_data after_boat_then_kite = carbon_data fresh
  end
  /\ match last_saved "preferences.json" (saves after_boat_then_kite) with
     | Some s => s = SavedPreferences (user_preferences after_boat_then_kite)
     | None => user_preferences after_boat_then_kite = user_preferences fresh
     end.
Proof.
  exact (run_write_through boat_then_kite fresh after_boat_then_kite
           eq_refl eq_refl).
Defined.

(* --------------------------------------------------------------------- *)
(** ** Storage *)
(* --------------------------------------------------------------------- *)

Lemma commit_snoc outcome trace w :
  forall i st,
    commit outcome i (trace ++ [w]) st =
    commit_one (outcome (i + length trace)%nat) w (commit outcome i trace st).
Proof.
  induction trace as [|w' trace IH]; intros i st; simpl.
  - by rewrite Nat.add_0_r.
  - rewrite IH. by rewrite Nat.add_succ_r.
Qed.

(** With every write going well, the files of the directory hold what the
    agent holds, through every call. *)
Lemma perform_stored st now c self self' :
  perform now c self = Ret self' ->
  loaded (carbon_file (commit always_written 0 (saves self) st))
    (mkRecords [] [] [] []) = carbon_data self ->
  loaded (preferences_file (commit always_written 0 (saves self) st))
    default_preferences = user_preferences self ->
  loaded (carbon_file (commit always_written 0 (saves self') st))
    (mkRecords [] [] [] []) = carbon_data self'
  /\ loaded (preferences_file (commit always_written 0 (saves self') st))
       default_preferences = user_preferences self'.
Proof.
  intros Hc Hcarbon Hprefs.
  apply perform_cases in Hc
    as [->|[(_ & d & -> & _)|(_ & prefs & -> & _)]]; [done|..];
    cbn [record_carbon _save_data set_carbon carbon_data saves
         user_preferences];
    rewrite commit_snoc; by cbn.
Qed.

Lemma run_stored st calls :
  forall self self',
    run calls self = Ret self' ->
    loaded (carbon_file (commit always_written 0 (saves self) st))
      (mkRecords [] [] [] []) = carbon_data self ->
    loaded (preferences_file (commit always_written 0 (saves self) st))
      default_preferences = user_preferences self ->
    loaded (carbon_file (commit always_written 0 (saves self') st))
      (mkRecords [] [] [] []) = carbon_data self'
    /\ loaded (preferences_file (commit always_written 0 (saves self') st))
         default_preferences = user_preferences self'.
Proof.
  induction calls as [|[now c] calls IH]; intros self self'; cbn [run].
  - by intros [= <-].
  - destruct (perform now c self) as [self1|e|] eqn:Hc; try discriminate.
    cbn [mbind result_bind]. intros Hrun Hcarbon Hprefs.
    destruct (perform_stored st now c self self1 Hc Hcarbon Hprefs).
    by apply (IH self1).
Qed.

(** A start that goes well leaves both files present. *)
Lemma commit_keeps_files outcome trace :
  forall i st,
    is_Some (carbon_file st) -> is_Some (preferences_file st) ->
    is_Some (carbon_file (commit outcome i trace st))
    /\ is_Some (preferences_file (commit outcome i trace st)).
Proof.
  induction trace as [|w trace IH]; intros i st Hc Hp; simpl; [done|].
  apply IH; unfold commit_one;
    destruct (snd w); destruct (String.eqb _ _); try done;
    cbn [carbon_file preferences_file]; try done;
    destruct (outcome i); by cbn.
Qed.

(** X5: round trip through storage. An agent started on a directory (the
    start and every later write going well) and taken through any sequence
    of calls is found again by a new start on the directory as it then is:
    the same record set (entries, fields, order) and the same preferences;
    and that new start writes nothing. *)
Theorem reload_round_trip st calls self0 st1 self' :
  __init__ healthy healthy st = (self0, st1) ->
  run calls self0 = Ret self' ->
  __init__ healthy healthy (commit always_written 0 (saves self') st1) =
  (mkAgent (carbon_data self') (user_preferences self') [],
   commit always_written 0 (saves self') st1).
Proof.
  intros Hinit Hrun.
  assert (Hstart :
    saves self0 = []
    /\ loaded (carbon_file st1) (mkRecords [] [] [] []) = carbon_data self0
    /\ loaded (preferences_file st1) default_preferences
       = user_preferences self0
    /\ is_Some (carbon_file st1) /\ is_Some (preferences_file st1)).
  { unfold __init__, _load_or_create_data, loaded in *. cbn in Hinit.
    destruct (carbon_file st) as [[d|]|]; destruct (preferences_file st)
      as [[p|]|]; injection Hinit as <- <-; cbn; by eauto 10. }
  destruct Hstart as (Hempty & Hcarbon & Hprefs & Hcf & Hpf).
  destruct (run_stored st1 calls self0 self' Hrun) as [Hc' Hp'];
    [by rewrite Hempty..|].
  destruct (commit_keeps_files always_written (saves self') 0 st1 Hcf Hpf)
    as [[cf Hcf'] [pf Hpf']].
  set (st' := commit always_written 0 (saves self') st1) in *.
  unfold __init__. unfold loaded in Hc', Hp'.
  destruct (_load_or_create_data healthy (carbon_file st') _)
    as [d cf'] eqn:Ed.
  destruct (_load_or_create_data healthy (preferences_file st') _)
    as [p pf'] eqn:Ep.
  cbn [fst] in Hc', Hp'. subst d p.
  assert (cf' = carbon_file st') as ->.
  { unfold _load_or_create_data in Ed. rewrite Hcf' in Ed. cbn in Ed.
    rewrite Hcf'. by destruct cf; injection Ed as _ <-. }
  assert (pf' = preferences_file st') as ->.
  { unfold _load_or_create_data in Ep. rewrite Hpf' in Ep. cbn in Ep.
    rewrite Hpf'. by destruct pf; injection Ep as _ <-. }
  by destruct st'.
Qed.

Lemma reload_round_trip_witness :
  __init__ healthy healthy
    (commit always_written 0 (saves kite_on_defaults) (snd first_start)) =
  (mkAgent (carbon_data kite_on_defaults) (user_preferences kite_on_defaults) [],
   commit always_written 0 (saves kite_on_defaults) (snd first_start)).
Proof.
  exact (reload_round_trip empty_directory boat_then_kite with_defaults
           (snd first_start) kite_on_defaults eq_refl eq_refl).
Defined.

(** X6: a save of the record set that fails once the file is opened loses
    every stored record, not only the new entry: whatever the directory held
    and whatever was saved before, the next start finds an empty record
    set. *)
Theorem truncated_save_loses_records outcome i trace d st :
  outcome (i + length trace)%nat = Truncated ->
  carbon_data
    (fst (__init__ healthy healthy
            (commit outcome i
               (trace ++ [("carbon_footprint.json", SavedCarbon d)]) st))) =
  mkRecords [] [] [] [].
Proof.
  intros Hlast. rewrite commit_snoc, Hlast.
  unfold __init__. cbn [commit_one snd fst String.eqb Ascii.eqb Bool.eqb
                        write_file carbon_file preferences_file].
  destruct (@_load_or_create_data (gmap string pref_value) _ _ _) as [p pf].
  reflexivity.
Qed.

Lemma truncated_save_loses_records_witness :
  carbon_data
    (fst (__init__ healthy healthy
            (commit last_truncated 0
               ([("carbon_footprint.json",
                  SavedCarbon (carbon_data bus_then_electricity))]
                ++ [("carbon_footprint.json",
                     SavedCarbon (carbon_data after_boat_then_kite))])
               used_directory))) =
  mkRecords [] [] [] [].
Proof.
  exact (truncated_save_loses_records last_truncated 0
           [("carbon_footprint.json",
             SavedCarbon (carbon_data bus_then_electricity))]
           (carbon_data after_boat_then_kite) used_directory eq_refl).
Defined.

(** X7: a start that cannot read the stored record set goes on with an empty
    one and leaves the file as it is; the first activity recorded afterwards
    then replaces the stored document by one that holds this entry alone. *)
Theorem failed_load_overwrites env env_preferences st old self0 st1 :
  carbon_file st = Some (Doc old) ->
  makedirs_ok env && read_ok env = false ->
  __init__ env env_preferences st = (self0, st1) ->
  carbon_data self0 = mkRecords [] [] [] []
  /\ carbon_file st1 = Some (Doc old)
  /\ forall now c self',
       is_tracking c = true ->
       perform now c self0 = Ret self' ->
       self' <> self0 ->
       carbon_file (commit always_written 0 (saves self') st1) =
       Some (Doc (carbon_data self'))
       /\ entries (carbon_data self') = 1%nat.
Proof.
  intros Hfile Henv Hinit.
  assert (Hstart : carbon_data self0 = mkRecords [] [] [] []
                   /\ saves self0 = [] /\ carbon_file st1 = Some (Doc old)).
  { unfold __init__ in Hinit. rewrite Hfile in Hinit.
    destruct (_load_or_create_data env_preferences _ _) as [p pf].
    unfold _load_or_create_data in Hinit.
    destruct (makedirs_ok env), (read_ok env); try discriminate;
      cbn in Hinit; by injection Hinit as <- <-. }
  destruct Hstart as (Hempty & Htrace & Hkept).
  split; [done|]. split; [done|].
  intros now c self' Htracking Hc Hchanged.
  apply perform_cases in Hc
    as [->|[(_ & d & -> & Hd)|(Hno & _)]]; [done| |congruence].
  cbn [record_carbon _save_data set_carbon carbon_data saves].
  rewrite Htrace. cbn. split; [done|].
  rewrite Hempty in Hd.
  by destruct Hd as [[e ->]|[[e ->]|[[e ->]|[e ->]]]].
Qed.

Lemma failed_load_overwrites_witness :
  exists self',
    perform noon (TrackFood []) (fst (__init__ unreadable healthy used_directory))
    = Ret self'
    /\ carbon_file
         (commit always_written 0 (saves self')
            (snd (__init__ unreadable healthy used_directory))) =
       Some (Doc (carbon_data self'))
    /\ entries (carbon_data self') = 1%nat.
Proof.
  destruct (failed_load_overwrites unreadable healthy used_directory
              (carbon_data bus_then_electricity)
              (fst (__init__ unreadable healthy used_directory))
              (snd (__init__ unreadable healthy used_directory))
              eq_refl eq_refl eq_refl) as (_ & _ & H).
  eexists. split; [reflexivity|].
  apply (H noon (TrackFood [])); [reflexivity|reflexivity|].
  intros Heq. apply (f_equal saves) in Heq. discriminate Heq.
Defined.

(* --------------------------------------------------------------------- *)
(** ** The summary and its window *)
(* --------------------------------------------------------------------- *)

Lemma window_sum_in_window start log :
  Spec.window_sum start log =
  fold_left PrimFloat.add (map snd (in_window start log)) 0%float.
Proof. reflexivity. Qed.

Lemma in_window_nothing {A : Type} (date : A -> string) (value : A -> float)
    start (l : list A) :
  Forall (fun e => PyStr.ge (date e) start = false) l ->
  in_window start (map (fun e => (date e, value e)) l) = [].
Proof.
  induction 1 as [|e l He _ IH]; [done|].
  unfold in_window in *. simpl. by rewrite He.
Qed.

(** X8: when no stored entry falls in the window (a new user, or records
    that are all older), the summary is zero in every category and in
    total. *)
Theorem summary_nothing_in_window now time_period days start self :
  Spec.period_days time_period = Some days ->
  sub_days now days = Ret start ->
  Forall (fun e => PyStr.ge (t_date e) (isoformat start) = false)
    (transportation (carbon_data self)) ->
  Forall (fun e => PyStr.ge (e_date e) (isoformat start) = false)
    (energy (carbon_data self)) ->
  Forall (fun e => PyStr.ge (f_date e) (isoformat start) = false)
    (food (carbon_data self)) ->
  Forall (fun e => PyStr.ge (p_date e) (isoformat start) = false)
    (purchases (carbon_data self)) ->
  get_carbon_footprint_summary now time_period self =
  Ret (Summary
         [ ("transportation", 0%float); ("energy", 0%float);
           ("food", 0%float); ("purchases", 0%float); ("total", 0%float) ]).
Proof.
  intros Hp Hs Ht He Hf Hpu.
  rewrite (summary_closed_form now time_period (isoformat start) self)
    by exact (start_date_period now time_period days start Hp Hs).
  rewrite !window_sum_in_window.
  rewrite (in_window_nothing t_date t_emissions) by done.
  rewrite (in_window_nothing e_date e_emissions) by done.
  rewrite (in_window_nothing f_date f_total_emissions) by done.
  rewrite (in_window_nothing p_date p_emissions) by done.
  reflexivity.
Qed.

Lemma summary_nothing_in_window_witness :
  get_carbon_footprint_summary noon "year" long_ago =
  Ret (Summary
         [ ("transportation", 0%float); ("energy", 0%float);
           ("food", 0%float); ("purchases", 0%float); ("total", 0%float) ]).
Proof.
  apply (summary_nothing_in_window noon "year" 365
           (mkDatetime 2023 3 2 12 0 0 0) long_ago eq_refl eq_refl);
    repeat constructor.
Defined.

(** X9: the summary depends on the record set through the entries in the
    window alone: two agents whose four logs agree there get the same
    summary, whatever older entries, preferences and saves they have. *)
Theorem summary_depends_on_window now time_period start self1 self2 :
  start_date now time_period = Ret (Some start) ->
  in_window start
    (map (fun e => (t_date e, t_emissions e)) (transportation (carbon_data self1)))
  = in_window start
      (map (fun e => (t_date e, t_emissions e))
         (transportation (carbon_data self2))) ->
  in_window start
    (map (fun e => (e_date e, e_emissions e)) (energy (carbon_data self1)))
  = in_window start
      (map (fun e => (e_date e, e_emissions e)) (energy (carbon_data self2))) ->
  in_window start
    (map (fun e => (f_date e, f_total_emissions e)) (food (carbon_data self1)))
  = in_window start
      (map (fun e => (f_date e, f_total_emissions e))
         (food (carbon_data self2))) ->
  in_window start
    (map (fun e => (p_date e, p_emissions e)) (purchases (carbon_data self1)))
  = in_window start
      (map (fun e => (p_date e, p_emissions e))
         (purchases (carbon_data self2))) ->
  get_carbon_footprint_summary now time_period self1 =
  get_carbon_footprint_summary now time_period self2.
Proof.
  intros Hs Ht He Hf Hp.
  rewrite !(summary_closed_form now time_period start) by done.
  rewrite !window_sum_in_window. by rewrite Ht, He, Hf, Hp.
Qed.

Lemma summary_depends_on_window_witness :
  get_carbon_footprint_summary noon "month" with_old_trip =
  get_carbon_footprint_summary noon "month" bus_then_electricity.
Proof.
  apply (summary_depends_on_window noon "month" "2024-01-31T12:00:00");
    reflexivity.
Defined.

(** The ordinal of a date of year 2 or later is past the first year, and no
    date is past the last ordinal. *)
Lemma toordinal_bounds t :
  valid t -> 2 <= year t -> 366 <= toordinal t <= _MAXORDINAL.
Proof.
  intros (Hy & Hm & Hd & _) Hy2.
  unfold toordinal, _ymd2ord, _days_before_month, _MAXORDINAL.
  assert (Hbefore : 0 <= nth (Z.to_nat (month t)) _DAYS_BEFORE_MONTH 0 <= 334).
  { assert (Em : month t = 1 \/ month t = 2 \/ month t = 3 \/ month t = 4
                 \/ month t = 5 \/ month t = 6 \/ month t = 7 \/ month t = 8
                 \/ month t = 9 \/ month t = 10 \/ month t = 11
                 \/ month t = 12) by lia.
    repeat (destruct Em as [->|Em]); try rewrite Em; simpl; lia. }
  revert Hbefore. generalize (nth (Z.to_nat (month t)) _DAYS_BEFORE_MONTH 0).
  intros before Hbefore.
  destruct (Z.eq_dec (year t) 9999) as [E|E].
  - rewrite E. change (_is_leap 9999) with false.
    change (_days_before_year 9999) with 3651694.
    rewrite andb_false_r. cbv iota. lia.
  - unfold _days_before_year. cbv zeta.
    destruct (_ && _); Z.div_mod_to_equations; lia.
Qed.

(** For a clock reading of year 2 or later the start of each window
    exists. *)
Lemma sub_days_defined t days :
  valid t -> 2 <= year t -> 0 <= days <= 365 ->
  exists start, sub_days t days = Ret start.
Proof.
  intros Hv Hy Hd. pose proof (toordinal_bounds t Hv Hy) as Hord.
  unfold sub_days, _MAXORDINAL in *.
  destruct (Z.ltb_spec 0 (toordinal t - days)); [|lia].
  destruct (Z.leb_spec (toordinal t - days) 3652059); [|lia].
  cbn [andb]. destruct (_ord2ymd _) as [[y m] d]. by eexists.
Qed.

(** X10: at every clock reading of year 2 or later, each of the periods
    "week", "month" and "year" gets a summary over the five keys: the date
    arithmetic never raises there. *)
Theorem summary_defined now time_period self :
  valid now -> 2 <= year now ->
  In time_period ["week"; "month"; "year"] ->
  exists summary,
    get_carbon_footprint_summary now time_period self = Ret (Summary summary)
    /\ PyDict.keys summary =
       ["transportation"; "energy"; "food"; "purchases"; "total"].
Proof.
  intros Hv Hy Hp.
  assert (Hdays : exists days,
            Spec.period_days time_period = Some days /\ 0 <= days <= 365).
  { simpl in Hp. destruct Hp as [<-|[<-|[<-|[]]]]; eexists; (split; [reflexivity|lia]). }
  destruct Hdays as (days & Hdays & Hrange).
  destruct (sub_days_defined now days Hv Hy Hrange) as [start Hs].
  rewrite (summary_closed_form now time_period (isoformat start) self)
    by exact (start_date_period now time_period days start Hdays Hs).
  by eexists.
Qed.

Lemma summary_defined_witness :
  exists summary,
    get_carbon_footprint_summary noon "week" third_decimal
    = Ret (Summary summary)
    /\ PyDict.keys summary =
       ["transportation"; "energy"; "food"; "purchases"; "total"].
Proof.
  apply summary_defined.
  - unfold valid. simpl. lia.
  - simpl. lia.
  - simpl. tauto.
Defined.

(* --------------------------------------------------------------------- *)
(** ** Tips that are returned *)
(* --------------------------------------------------------------------- *)

(** The fill loop returns only once [count] tips are selected. *)
Lemma fill_reaches_count fuel draws categories count :
  forall i selected tips,
    fill fuel draws i categories count selected = Ret tips ->
    count <= Z.of_nat (length tips).
Proof.
  induction fuel as [|fuel IH]; intros i selected tips; cbn [fill];
    destruct (Z.ltb_spec (Z.of_nat (length selected)) count);
    try discriminate; try (intros [= <-]; lia).
  destruct (tips_of _) as [|t0 tl]; [by apply IH|].
  set (tip := nth _ (t0 :: tl) "").
  destruct (negb (contains tip selected)); by apply IH.
Qed.

(** The fill loop selects tips of the allowed categories only. *)
Lemma fill_in_pool fuel draws categories count :
  forall i selected tips,
    (forall t, t ∈ selected -> t ∈ Spec.pool categories) ->
    fill fuel draws i categories count selected = Ret tips ->
    forall t, t ∈ tips -> t ∈ Spec.pool categories.
Proof.
  induction fuel as [|fuel IH]; intros i selected tips Hsub; cbn [fill];
    destruct (Z.of_nat (length selected) <? count); try discriminate;
    try (by intros [= <-]).
  destruct (tips_of _) as [|t0 tl] eqn:Htips; [by apply IH|].
  rewrite <- Htips.
  set (rc := nth (randint draws i (length categories)) categories "") in *.
  set (tip := nth _ (tips_of rc) "").
  destruct (negb (contains tip selected)); [|by apply IH].
  apply IH.
  intros t [Ht| ->%list_elem_of_singleton]%elem_of_app; [by apply Hsub|].
  apply (tips_in_pool categories rc).
  - apply drawn_category_allowed. fold rc. by rewrite Htips.
  - apply nth_randint_elem. by rewrite Htips.
Qed.

(** X11: for [1 <= count] and a category that is not refused, a call of
    [get_personalized_tips] that returns gives exactly [count] tips, each
    one a tip of an allowed category: of the category of the filter when
    one is given, of the four categories otherwise. *)
Theorem tips_count_and_pool fuel draws now category count self tips :
  truthy category && negb (PyDict.mem (default "" category) eco_tips) = false ->
  1 <= count ->
  get_personalized_tips fuel draws now category count self = Ret tips ->
  Z.of_nat (length tips) = count
  /\ forall t, t ∈ tips ->
       t ∈ flat_map tips_of
             (if truthy category then [default "" category]
              else PyDict.keys eco_tips).
Proof.
  intros Hvalid Hcount.
  destruct (tips_reach_fill fuel draws now category count self Hvalid)
    as [[e ->]|(selected & i & _ & Hsub & Hlen & ->)]; [discriminate|].
  intros Hfill. split.
  - apply Z.le_antisymm.
    + apply (fill_length _ _ _ _ _ _ _ (Hlen Hcount) Hfill).
    + apply (fill_reaches_count _ _ _ _ _ _ _ Hfill).
  - apply (fill_in_pool _ _ _ _ _ _ _ Hsub Hfill).
Qed.

Lemma tips_count_and_pool_witness :
  Z.of_nat
    (length
       [ "Plan meals to reduce food waste";
         "Buy local produce to reduce transportation emissions" ]) = 2
  /\ forall t,
       t ∈ [ "Plan meals to reduce food waste";
             "Buy local produce to reduce transportation emissions" ] ->
       t ∈ flat_map tips_of ["food"].
Proof.
  apply (tips_count_and_pool 10 (fun n => 2 * n + 2)%nat noon (Some "food") 2
           bus_then_electricity).
  - reflexivity.
  - lia.
  - vm_compute. reflexivity.
Defined.

(** Over categories that all have tips and are all allowed, the loop over
    the sorted categories takes one tip of each until [count] is reached. *)
Lemma prioritize_one_each draws categories count srt :
  Forall (fun kv : string * float =>
            PyDict.mem kv.1 eco_tips && contains kv.1 categories = true
            /\ tips_of kv.1 <> []) srt ->
  forall i selected,
    Z.of_nat (length selected) < count ->
    Z.of_nat (length (prioritize draws i srt categories count selected).1) =
    Z.min count (Z.of_nat (length selected + length srt)).
Proof.
  induction 1 as [|[hc v] srt [Hok Htips] _ IH]; intros i selected Hlen;
    cbn [prioritize].
  - simpl. lia.
  - simpl in Hok, Htips. rewrite Hok.
    destruct (tips_of hc) as [|t0 tl]; [done|].
    set (tip := nth _ (t0 :: tl) "").
    assert (Happ : Z.of_nat (length (selected ++ [tip]))
                   = Z.of_nat (length selected) + 1)
      by (rewrite length_app; simpl; lia).
    destruct (Z.geb_spec (Z.of_nat (length (selected ++ [tip]))) count).
    + simpl. lia.
    + rewrite IH by lia. simpl. lia.
Qed.

(** X12: with no category filter and [1 <= count <= 4], at a clock reading
    of year 2 or later, [get_personalized_tips] returns exactly [count] tips
    without one turn of its [while] loop: one tip of each of the first
    [count] categories in the order of the month's emissions, whatever the
    draws and the records. *)
Theorem tips_without_retries draws now count self :
  valid now -> 2 <= year now -> 1 <= count <= 4 ->
  exists tips,
    Z.of_nat (length tips) = count
    /\ forall fuel,
         get_personalized_tips fuel draws now None count self = Ret tips.
Proof.
  intros Hv Hy Hcount.
  destruct (sub_days_defined now 30 Hv Hy ltac:(lia)) as [start Hs].
  unfold get_personalized_tips. cbn [truthy andb default].
  rewrite (summary_closed_form now "month" (isoformat start) self)
    by exact (start_date_period now "month" 30 start eq_refl Hs).
  cbn [mbind result_bind List.filter fst negb String.eqb Ascii.eqb Bool.eqb].
  set (l := [("transportation", _); _; _; _]).
  assert (Hall :
    Forall (fun kv : string * float =>
              PyDict.mem kv.1 eco_tips
              && contains kv.1 (PyDict.keys eco_tips) = true
              /\ tips_of kv.1 <> []) (sorted_desc l)).
  { rewrite sorted_desc_perm. by repeat constructor. }
  pose proof (prioritize_one_each draws (PyDict.keys eco_tips) count
                (sorted_desc l) Hall 0 [] ltac:(simpl; lia)) as Hlen.
  rewrite (Permutation_length (sorted_desc_perm l)) in Hlen.
  destruct (prioritize draws 0 (sorted_desc l) (PyDict.keys eco_tips) count [])
    as [selected i].
  simpl in Hlen. exists selected. split; [lia|].
  intros fuel.
  destruct fuel; cbn [fill];
    (destruct (Z.ltb_spec (Z.of_nat (length selected)) count); [lia|done]).
Qed.

Lemma tips_without_retries_witness :
  exists tips,
    Z.of_nat (length tips) = 3
    /\ forall fuel,
         get_personalized_tips fuel (fun n => n) noon None 3
           bus_then_electricity = Ret tips.
Proof.
  apply tips_without_retries.
  - unfold valid. simpl. lia.
  - simpl. lia.
  - lia.
Defined.

(* --------------------------------------------------------------------- *)
(** ** The window, on the timestamps the program writes *)
(* --------------------------------------------------------------------- *)

(** X13: on entries stamped by the program (the [isoformat] of a clock
    reading, with or without microseconds), the string comparison of the
    summary selects exactly the entries whose instant is not before the
    start of the window. *)
Theorem window_selects_by_instant start (stamped : list (datetime * float)) :
  valid start ->
  Forall (fun e => valid (fst e)) stamped ->
  in_window (isoformat start)
    (map (fun e => (isoformat (fst e), snd e)) stamped) =
  map (fun e => (isoformat (fst e), snd e))
    (List.filter (fun e => PyDatetime.ge (fst e) start) stamped).
Proof.
  intros Hs. induction 1 as [|e l He _ IH]; [done|].
  unfold in_window in *. cbn [map List.filter fst].
  rewrite (isoformat_ge (fst e) start He Hs), IH.
  by destruct (PyDatetime.ge (fst e) start).
Qed.

Lemma window_selects_by_instant_witness :
  in_window (isoformat noon)
    (map (fun e => (isoformat (fst e), snd e))
       [ (mkDatetime 2024 3 1 12 0 0 250, 1.5%float);
         (mkDatetime 2024 3 1 11 59 59 999999, 2.5%float);
         (mkDatetime 2024 3 1 12 0 0 0, 4%float) ]) =
  map (fun e => (isoformat (fst e), snd e))
    (List.filter (fun e => PyDatetime.ge (fst e) noon)
       [ (mkDatetime 2024 3 1 12 0 0 250, 1.5%float);
         (mkDatetime 2024 3 1 11 59 59 999999, 2.5%float);
         (mkDatetime 2024 3 1 12 0 0 0, 4%float) ]).
Proof.
  apply window_selects_by_instant.
  - unfold valid. simpl. lia.
  - repeat constructor; simpl; lia.
Defined.

(* --------------------------------------------------------------------- *)
(** ** Preferences, set twice *)
(* --------------------------------------------------------------------- *)

Lemma preferences_loop_idempotent (prefs preferences : gmap string pref_value) :
  foldl update_preference
    (foldl update_preference prefs (map_to_list preferences))
    (map_to_list preferences) =
  foldl update_preference prefs (map_to_list preferences).
Proof.
  apply map_eq. intros k.
  rewrite !loop_lookup by apply NoDup_fst_map_to_list.
  rewrite list_to_map_to_list.
  destruct (prefs !! k) as [old|]; [|done].
  by destruct (preferences !! k).
Qed.

(** X14: [set_user_preferences] is idempotent on the preferences: the same
    call made again leaves them as the first call set them and leaves the
    records alone; it only writes the preferences file once more, with the
    same content. *)
Theorem set_user_preferences_idempotent preferences self msg self1 :
  set_user_preferences preferences self = Ret (msg, self1) ->
  exists self2,
    set_user_preferences preferences self1 = Ret (msg, self2)
    /\ user_preferences self2 = user_preferences self1
    /\ carbon_data self2 = carbon_data self1
    /\ saves self2 =
       saves self1
       ++ [("preferences.json", SavedPreferences (user_preferences self1))].
Proof.
  unfold set_user_preferences. intros [= <- <-].
  eexists. split; [reflexivity|].
  cbn [user_preferences carbon_data saves _save_data].
  by rewrite preferences_loop_idempotent.
Qed.

Lemma set_user_preferences_idempotent_witness :
  exists self2,
    set_user_preferences vegan_and_colour
      (mkAgent (mkRecords [] [] [] [])
         (<["diet_type" := PStr "vegan"]> default_preferences)
         [("preferences.json",
           SavedPreferences
             (<["diet_type" := PStr "vegan"]> default_preferences))]) =
    Ret ("User preferences updated successfully", self2)
    /\ user_preferences self2 =
       <["diet_type" := PStr "vegan"]> default_preferences.
Proof.
  destruct (set_user_preferences_idempotent vegan_and_colour with_defaults
              "User preferences updated successfully"
              (mkAgent (mkRecords [] [] [] [])
                 (<["diet_type" := PStr "vegan"]> default_preferences)
                 [("preferences.json",
                   SavedPreferences
                     (<["diet_type" := PStr "vegan"]> default_preferences))]))
    as (self2 & Hret & Hprefs & _).
  - vm_compute. reflexivity.
  - exists self2. split; [exact Hret|exact Hprefs].
Defined.

(* --------------------------------------------------------------------- *)
(** ** Recommendations for a negative count *)
(* --------------------------------------------------------------------- *)

Lemma slice_to_length_negative {A : Type} n (x : list A) :
  n < 0 ->
  Z.of_nat (length (slice_to n x)) = Z.max 0 (Z.of_nat (length x) + n).
Proof.
  intros Hn. unfold slice_to. destruct (Z.leb_spec 0 n); [lia|].
  rewrite length_take. lia.
Qed.

(** For a negative [count] the loop stops at the first category that has
    products: its shuffled list loses its last [-count] products, and the
    cut to [count] takes as many again. *)
Lemma recommend_loop_negative draws count k cat rest :
  count < 0 ->
  products_of cat <> [] ->
  Z.of_nat (length (recommend_loop draws k (cat :: rest) count [])) =
  Z.max 0 (Z.max 0 (Z.of_nat (length (products_of cat)) + count) + count).
Proof.
  intros Hcount Hp. cbn [recommend_loop].
  destruct (products_of cat) as [|p ps] eqn:E; [done|]. rewrite <- E.
  set (available := shuffle draws k (products_of cat)).
  assert (Hlen : length available = length (products_of cat))
    by apply Permutation_length, shuffle_perm.
  cbn [app]. rewrite Z.min_l by lia.
  destruct (Z.geb_spec (Z.of_nat (length (slice_to count available))) count);
    [|lia].
  rewrite !slice_to_length_negative by done. by rewrite Hlen.
Qed.

(** X15: a negative [count] is not refused and does not give the empty list
    by itself: the call returns [max(0, 3 + 2 * count)] products of the
    first category it visits, so one product for [count = -1]. *)
Theorem recommend_negative_count draws count :
  count < 0 ->
  (exists l,
     recommend_sustainable_products draws None count = Products l
     /\ Z.of_nat (length l) = Z.max 0 (3 + 2 * count))
  /\ (forall c,
        In c ["home"; "kitchen"; "personal"] ->
        exists l,
          recommend_sustainable_products draws (Some c) count = Products l
          /\ Z.of_nat (length l) = Z.max 0 (3 + 2 * count)).
Proof.
  intros Hcount. split.
  - eexists. split; [reflexivity|].
    etrans;
      [by apply (recommend_loop_negative draws count 0 "home"
                   ["kitchen"; "personal"])|].
    simpl. lia.
  - intros c Hc. simpl in Hc.
    destruct Hc as [<-|[<-|[<-|[]]]]; (eexists; split; [reflexivity|]);
      (etrans; [by apply (recommend_loop_negative draws count 0 _ [])|]);
      simpl; lia.
Qed.

Lemma recommend_negative_count_witness :
  exists l,
    recommend_sustainable_products (fun n => n) None (-1) = Products l
    /\ Z.of_nat (length l) = 1.
Proof.
  exact (proj1 (recommend_negative_count (fun n => n) (-1) ltac:(lia))).
Defined.

(* --------------------------------------------------------------------- *)
(** ** The fill loop and the generator *)
(* --------------------------------------------------------------------- *)

Lemma randint_zero i n : randint (fun _ => 0%nat) i n = 0%nat.
Proof. unfold randint. apply Nat.Div0.mod_0_l. Qed.

(** Below [count], the loop over the sorted categories visits every
    category; on a generator that keeps returning 0 it takes the first tip
    of each. *)
Lemma prioritize_first_tips categories count srt :
  Forall (fun kv : string * float =>
            PyDict.mem kv.1 eco_tips && contains kv.1 categories = true
            /\ tips_of kv.1 <> []) srt ->
  forall i selected,
    Z.of_nat (length selected + length srt) < count ->
    (prioritize (fun _ => 0%nat) i srt categories count selected).1 =
    selected ++ map (fun kv => nth 0 (tips_of kv.1) "") srt.
Proof.
  induction 1 as [|[hc v] srt [Hok Htips] _ IH]; intros i selected Hlen;
    cbn [prioritize].
  - simpl. by rewrite app_nil_r.
  - simpl in Hok, Htips. rewrite Hok, randint_zero.
    destruct (tips_of hc) as [|t0 tl] eqn:E; [done|].
    cbn [map fst length] in *. rewrite E.
    destruct (Z.geb_spec (Z.of_nat (length (selected ++ [nth 0 (t0 :: tl) ""])))
                count) as [Hge|Hlt].
    + rewrite length_app in Hge. simpl in Hge. lia.
    + rewrite IH by (rewrite length_app; simpl; lia).
      by rewrite <- app_assoc.
Qed.

(** On a generator that keeps returning 0 the [while] loop draws the first
    tip of the first category at every turn: once that tip is selected, no
    turn adds a tip. *)
Lemma fill_spins categories count fuel :
  forall i selected,
    nth 0 (tips_of (nth 0 categories "")) "" ∈ selected ->
    Z.of_nat (length selected) < count ->
    fill fuel (fun _ => 0%nat) i categories count selected = OutOfFuel.
Proof.
  induction fuel as [|fuel IH]; intros i selected Hin Hlen; cbn [fill];
    (destruct (Z.ltb_spec (Z.of_nat (length selected)) count); [|lia]);
    [done|].
  rewrite !randint_zero.
  destruct (tips_of (nth 0 categories "")) as [|t0 tl] eqn:E in Hin |- *.
  - apply IH; [by rewrite E|done].
  - cbn [nth] in *.
    rewrite (proj2 (contains_elem_of t0 selected) Hin). cbn [negb].
    apply IH; [by rewrite E|done].
Qed.

(** X16: with no category filter and [5 <= count] (a report asks for five
    tips), whether [get_personalized_tips] returns is left to the generator:
    on one that keeps returning 0 the [while] loop never exits, whatever the
    records, although twenty tips are eligible. *)
Theorem tips_fill_can_spin fuel now count self :
  valid now -> 2 <= year now -> 5 <= count ->
  get_personalized_tips fuel (fun _ => 0%nat) now None count self = OutOfFuel.
Proof.
  intros Hv Hy Hcount.
  destruct (sub_days_defined now 30 Hv Hy ltac:(lia)) as [start Hs].
  unfold get_personalized_tips. cbn [truthy andb default].
  rewrite (summary_closed_form now "month" (isoformat start) self)
    by exact (start_date_period now "month" 30 start eq_refl Hs).
  cbn [mbind result_bind List.filter fst negb String.eqb Ascii.eqb Bool.eqb].
  set (l := [("transportation", _); _; _; _]).
  assert (Hall :
    Forall (fun kv : string * float =>
              PyDict.mem kv.1 eco_tips
              && contains kv.1 (PyDict.keys eco_tips) = true
              /\ tips_of kv.1 <> []) (sorted_desc l)).
  { rewrite sorted_desc_perm. by repeat constructor. }
  pose proof (Permutation_length (sorted_desc_perm l)) as Hfour.
  pose proof (prioritize_first_tips (PyDict.keys eco_tips) count
                (sorted_desc l) Hall 0 []
                ltac:(rewrite Hfour; simpl; lia)) as Hsel.
  destruct (prioritize (fun _ => 0%nat) 0 (sorted_desc l)
              (PyDict.keys eco_tips) count []) as [selected i].
  cbn [fst app] in Hsel. subst selected.
  apply fill_spins.
  - apply list_elem_of_fmap. eexists. split; cycle 1.
    + rewrite sorted_desc_perm. apply elem_of_cons. left. reflexivity.
    + reflexivity.
  - rewrite length_map, Hfour. simpl. lia.
Qed.

Lemma tips_fill_can_spin_witness :
  get_personalized_tips 1000 (fun _ => 0%nat) noon None 5 bus_then_electricity
  = OutOfFuel.
Proof.
  apply tips_fill_can_spin.
  - unfold valid. simpl. lia.
  - simpl. lia.
  - lia.
Defined.

(* --------------------------------------------------------------------- *)
(** ** The report *)
(* --------------------------------------------------------------------- *)

(** For each period of the table the comparison is computed without a fault
    and holds the key "total": the section of the text that compares with
    the average is there, with the verdict on the difference of the totals
    in percent of the average total. *)
Lemma comparison_defined time_period summary :
  In time_period ["week"; "month"; "year"] ->
  exists avg a comparison,
    PyDict.get time_period average_footprints = Some avg
    /\ float_of_int (sum_values avg) = Ret a
    /\ comparison_of time_period summary = Ret comparison
    /\ comparison_lines comparison =
       Lit ("COMPARISON TO AVERAGE:" +:+ nl)
       :: verdict (round1 ((item "total" summary - a) / a * 100)%float).
Proof.
  intros Hp. simpl in Hp.
  destruct Hp as [<-|[<-|[<-|[]]]].
  - exists [ ("transportation", 23); ("energy", 58); ("food", 35);
             ("purchases", 18) ], 134%float.
    eexists. split; [reflexivity|]. split; [reflexivity|].
    split; reflexivity.
  - exists [ ("transportation", 92); ("energy", 232); ("food", 140);
             ("purchases", 72) ], 536%float.
    eexists. split; [reflexivity|]. split; [reflexivity|].
    split; reflexivity.
  - exists [ ("transportation", 1104); ("energy", 2784); ("food", 1680);
             ("purchases", 864) ], 6432%float.
    eexists. split; [reflexivity|]. split; [reflexivity|].
    split; reflexivity.
Qed.

(** X17: for a period other than "week", "month" and "year",
    [generate_report] returns the summary's message behind "Couldn't
    generate report: ", without asking for tips: it returns whatever the
    generator and the clock. *)
Theorem report_unsupported_period fuel draws now now_tips now_text time_period
    self :
  ~ In time_period ["week"; "month"; "year"] ->
  generate_report fuel draws now now_tips now_text time_period self =
  Ret (map Piece
         [ Lit "Couldn't generate report: "; Lit "Unsupported time period: ";
           Lit time_period; Lit ". Please use 'week', 'month', or 'year'." ]).
Proof.
  intros Hnot. unfold generate_report, get_carbon_footprint_summary.
  by rewrite (start_date_unsupported now time_period Hnot).
Qed.

Lemma report_unsupported_period_witness :
  generate_report 0 (fun _ => 0%nat) noon noon noon "decade"
    bus_then_electricity =
  Ret (map Piece
         [ Lit "Couldn't generate report: "; Lit "Unsupported time period: ";
           Lit "decade"; Lit ". Please use 'week', 'month', or 'year'." ]).
Proof.
  apply report_unsupported_period. simpl. intros [H|[H|[H|[]]]]; discriminate H.
Defined.

(** X18: for "week", "month" and "year", at a clock reading of year 2 or
    later, [generate_report] returns exactly when its call of
    [get_personalized_tips] (five tips, no filter) returns, and its text is
    then the heading, the five lines of the summary of the period, the
    comparison with the average, which is never left out, with the verdict
    on the difference of the totals in percent, and the numbered tips. *)
Theorem report_on_supported_period fuel draws now now_tips now_text
    time_period self :
  valid now -> 2 <= year now ->
  In time_period ["week"; "month"; "year"] ->
  exists summary avg a,
    get_carbon_footprint_summary now time_period self = Ret (Summary summary)
    /\ PyDict.get time_period average_footprints = Some avg
    /\ float_of_int (sum_values avg) = Ret a
    /\ generate_report fuel draws now now_tips now_text time_period self =
       (tips ← get_personalized_tips fuel draws now_tips None 5 self;
        Ret (heading time_period now_text
             ++ map Piece
                  (summary_lines summary
                   ++ (Lit ("COMPARISON TO AVERAGE:" +:+ nl)
                       :: verdict
                            (round1
                               ((item "total" summary - a) / a * 100)%float))
                   ++ Lit ("PERSONALIZED IMPROVEMENT TIPS:" +:+ nl)
                      :: tip_lines 1 tips))).
Proof.
  intros Hv Hy Hp.
  assert (Hdays : exists days,
            Spec.period_days time_period = Some days /\ 0 <= days <= 365).
  { simpl in Hp.
    destruct Hp as [<-|[<-|[<-|[]]]]; eexists; (split; [reflexivity|lia]). }
  destruct Hdays as (days & Hdays & Hrange).
  destruct (sub_days_defined now days Hv Hy Hrange) as [start Hs].
  pose proof (summary_closed_form now time_period (isoformat start) self
                (start_date_period now time_period days start Hdays Hs))
    as Hsum.
  set (summary := [("transportation", _); _; _; _; _]) in Hsum.
  destruct (comparison_defined time_period summary Hp)
    as (avg & a & comparison & Havg & Ha & Hcomp & Hlines).
  exists summary, avg, a. split; [exact Hsum|]. split; [exact Havg|].
  split; [exact Ha|].
  unfold generate_report. rewrite Hsum. cbn [mbind result_bind].
  destruct (get_personalized_tips fuel draws now_tips None 5 self)
    as [tips|e|]; [|done..].
  rewrite Hcomp. cbn [mbind result_bind]. unfold text_report.
  by rewrite Hlines.
Qed.

Lemma report_on_supported_period_witness :
  exists summary avg a,
    get_carbon_footprint_summary noon "week" bus_then_electricity
    = Ret (Summary summary)
    /\ PyDict.get "week" average_footprints = Some avg
    /\ float_of_int (sum_values avg) = Ret a
    /\ generate_report 10 (fun n => n) noon noon noon "week"
         bus_then_electricity =
       (tips ← get_personalized_tips 10 (fun n => n) noon None 5
                 bus_then_electricity;
        Ret (heading "week" noon
             ++ map Piece
                  (summary_lines summary
                   ++ (Lit ("COMPARISON TO AVERAGE:" +:+ nl)
                       :: verdict
                            (round1
                               ((item "total" summary - a) / a * 100)%float))
                   ++ Lit ("PERSONALIZED IMPROVEMENT TIPS:" +:+ nl)
                      :: tip_lines 1 tips))).
Proof.
  apply report_on_supported_period.
  - unfold valid. simpl. lia.
  - simpl. lia.
  - simpl. tauto.
Defined.

(** The records of [bus_then_electricity], reported for the week: the total
    of 0.3 kg is 99.8% lower than the average of 134 kg. *)
Example report_of_the_week :
  generate_report 10 (fun n => n) noon noon noon "week" bus_then_electricity =
  Ret (heading "week" noon
       ++ map Piece
            (summary_lines
               [ ("transportation", 0.1%float); ("energy", 0.2%float);
                 ("food", 0%float); ("purchases", 0%float);
                 ("total", 0.3%float) ]
             ++ [ Lit ("COMPARISON TO AVERAGE:" +:+ nl);
                  Lit "Your footprint is "; Num 99.8%float;
                  Lit ("% LOWER than average. Great job!" +:+ nl +:+ nl) ]
             ++ Lit ("PERSONALIZED IMPROVEMENT TIPS:" +:+ nl)
                :: tip_lines 1
                     [ "Switch to LED light bulbs to reduce energy consumption";
                       "Try using public transportation once a week";
                       "Plan meals to reduce food waste";
                       "Repair items when possible instead of replacing";
                       "Consider carpooling to reduce emissions" ])).
Proof. vm_compute. reflexivity. Qed.
